(** * Underwriting decision engine: a shallow embedding of [underwriting_tool.py]

    The development follows the layout of the Python module: the data model
    (the pydantic classes and the dictionaries passed between the stages), the
    simulated external data API, the rule engine, the risk calculator and the
    decision step of [UnderwritingTool].

    Conventions.
    - Python [int] is [Z]; [len] of a list is a [nat].
    - Python [float] is modelled by exact rationals [Q]: the comparisons of the
      code are the comparisons of [Q], rounding of binary floating point is not
      modelled.
    - A dictionary with a fixed set of keys is a record; a key that only some
      producers set is an [option] field, read the way [dict.get] reads it.
    - [np.random], the trained classifier and exceptions raised inside a [try]
      block are inputs of the model (an [Env]), so every stage is a function.
    - Timestamps and log records are left out. *)

From Stdlib Require Import ZArith QArith Qminmax Qround Bool List String Ascii Lia Lqa.
From Stdlib Require Import DecimalString.
Import ListNotations.

Open Scope string_scope.
Open Scope Z_scope.

(** ** Python strings *)

Module PyStr.

(** [str.lower] on the ASCII range. *)
Definition lower_char (c : ascii) : ascii :=
  let n := nat_of_ascii c in
  if (Nat.leb 65 n && Nat.leb n 90)%bool then ascii_of_nat (n + 32) else c.

Fixpoint lower (s : string) : string :=
  match s with
  | EmptyString => EmptyString
  | String c rest => String (lower_char c) (lower rest)
  end.

(** [needle in hay]. *)
Fixpoint str_in (needle hay : string) : bool :=
  match hay with
  | EmptyString => String.prefix needle EmptyString
  | String _ rest => String.prefix needle hay || str_in needle rest
  end.

(** [str(n)] for a length. *)
Definition str_of_nat (n : nat) : string :=
  NilEmpty.string_of_uint (Nat.to_uint n).

(** Truth value of a string: non-empty. *)
Definition truthy (s : string) : bool :=
  match s with EmptyString => false | _ => true end.

End PyStr.

(** ** Enums *)

Inductive UnderwritingDecision :=
| APPROVED
| APPROVED_WITH_CONDITIONS
| DECLINED
| REFER_TO_MANUAL_REVIEW.

Inductive RiskLevel := LOW | MEDIUM | HIGH | VERY_HIGH.

Inductive InsuranceType := AUTO | HOME | LIFE | HEALTH.

Inductive EmploymentStatus := employed | self_employed | unemployed | retired.

Inductive ConstructionType := wood | brick | concrete | mixed.

Definition UnderwritingDecision_eqb (x y : UnderwritingDecision) : bool :=
  match x, y with
  | APPROVED, APPROVED
  | APPROVED_WITH_CONDITIONS, APPROVED_WITH_CONDITIONS
  | DECLINED, DECLINED
  | REFER_TO_MANUAL_REVIEW, REFER_TO_MANUAL_REVIEW => true
  | _, _ => false
  end.

(** ** Pydantic models (validated values) *)

Record DrivingRecord := {
  years_licensed : Z;
  accidents_last_5_years : Z;
  violations_last_3_years : Z;
  dui_history : bool;
  license_suspended : bool
}.

Record ClaimsHistory := {
  total_claims : Z;
  claims_last_3_years : Z;
  total_claimed_amount : Q;
  fraud_indicators : bool
}.

Record PropertyInfo := {
  property_age : Z;
  construction_type : ConstructionType;
  security_system : bool;
  fire_protection_class : Z;
  flood_zone : bool
}.

Record ApplicantData := {
  applicant_id : string;
  name : string;
  age : Z;
  credit_score : Z;
  annual_income : Q;
  employment_status : EmploymentStatus;
  insurance_type : InsuranceType;
  coverage_amount : Q;
  claims_history : ClaimsHistory;
  driving_record : option DrivingRecord;
  property_info : option PropertyInfo;
  smoker : option bool;
  pre_existing_conditions : option bool
}.

(** [x is not None] and the truth value of an optional flag. *)
Definition is_some {A} (o : option A) : bool :=
  match o with Some _ => true | None => false end.

Definition flag (o : option bool) : bool :=
  match o with Some b => b | None => false end.

(** ** Results of the simulated calls *)

Inductive outcome (A : Type) :=
| Returned (a : A)
| Raised (msg : string).
Arguments Returned {A} a.
Arguments Raised {A} msg.

(** The dictionary returned by [verify_credit_score]. *)
Record CreditData := {
  cd_status : string;
  cd_verified : bool;
  cd_reported_score : option Z;
  cd_actual_score : option Z;
  cd_score_difference : option Z;
  cd_source : option string;
  cd_error : option string;
  cd_fallback : option string
}.

(** The dictionary returned by [fetch_driving_record]. *)
Record DmvData := {
  dmv_status : string;
  dmv_data_available : bool;
  dmv_additional_violations : option Z;
  dmv_recent_incidents : option (list string);
  dmv_license_status : option string;
  dmv_source : option string;
  dmv_error : option string
}.

(** The [external_data] dictionary built by [_verify_external_data]. *)
Record ExternalData := {
  ext_credit_verified : bool;
  ext_driving_verified : bool;
  ext_external_sources : list string;
  ext_credit_data : option CreditData;
  ext_dmv_data : option DmvData
}.

(** ** External API (simulated) *)

Module ExternalDataAPI.

(** [draw] is what the body of the [try] block meets: the value of
    [np.random.randint(-20, 20)], or an exception with its message. *)
Definition verify_credit_score (draw : outcome Z) (reported_score : Z) : CreditData :=
  match draw with
  | Returned variance =>
      let actual_score := Z.max 300 (Z.min 850 (reported_score + variance)) in
      {| cd_status := "success";
         cd_verified := true;
         cd_reported_score := Some reported_score;
         cd_actual_score := Some actual_score;
         cd_score_difference := Some (Z.abs (actual_score - reported_score));
         cd_source := Some "Experian (Simulated)";
         cd_error := None;
         cd_fallback := None |}
  | Raised e =>
      {| cd_status := "error";
         cd_verified := false;
         cd_reported_score := None;
         cd_actual_score := None;
         cd_score_difference := None;
         cd_source := None;
         cd_error := Some e;
         cd_fallback := Some "Using self-reported score" |}
  end.

(** [draw]: the value of [np.random.randint(0, 2)], or an exception. *)
Definition fetch_driving_record (draw : outcome Z) : DmvData :=
  match draw with
  | Returned extra =>
      {| dmv_status := "success";
         dmv_data_available := true;
         dmv_additional_violations := Some extra;
         dmv_recent_incidents := Some [];
         dmv_license_status := Some "valid";
         dmv_source := Some "DMV (Simulated)";
         dmv_error := None |}
  | Raised e =>
      {| dmv_status := "error";
         dmv_data_available := false;
         dmv_additional_violations := None;
         dmv_recent_incidents := None;
         dmv_license_status := None;
         dmv_source := None;
         dmv_error := Some e |}
  end.


End ExternalDataAPI.

(** ** Classifier *)

Record Features := {
  f_credit_score : Z;
  f_age : Z;
  f_claims_count : Z;
  f_coverage_amount_normalized : Q;
  f_years_licensed : Z
}.

(** The dictionary returned by [predict_risk]. *)
Record MLResults := {
  ml_available : bool;
  ml_prediction : option Z;
  ml_confidence : option Q;
  ml_probabilities : option (Q * Q * Q);
  ml_error : option string
}.

Module UnderwritingMLModel.

(** The fitted scaler and tree, as a function from the feature row to the
    predicted class and the row of class probabilities; it may raise. *)
Definition Model := Features -> outcome (Z * list Q).

Definition unavailable : MLResults :=
  {| ml_available := false; ml_prediction := Some 0; ml_confidence := None;
     ml_probabilities := None; ml_error := None |}.

Definition failed (e : string) : MLResults :=
  {| ml_available := false; ml_prediction := None; ml_confidence := None;
     ml_probabilities := None; ml_error := Some e |}.

(** [model = None] stands for [not SKLEARN_AVAILABLE or self.model is None]. *)
Definition predict_risk (model : option Model) (features : Features) : MLResults :=
  match model with
  | None => unavailable
  | Some m =>
      match m features with
      | Raised e => failed e
      | Returned (prediction, probabilities) =>
          match probabilities with
          | p0 :: p1 :: p2 :: rest =>
              {| ml_available := true;
                 ml_prediction := Some prediction;
                 ml_confidence := Some (fold_left Qmax (p1 :: p2 :: rest) p0);
                 ml_probabilities := Some (p0, p1, p2);
                 ml_error := None |}
          | _ => failed "index out of bounds"
          end
      end
  end.

End UnderwritingMLModel.


(** ** Rule engine *)

(** The dictionary returned by [evaluate_rules]. *)
Record RuleResults := {
  rules_passed : list string;
  rules_failed : list string;
  risk_factors : list string;
  auto_decline : bool;
  total_rules_evaluated : nat
}.

(** The dictionary returned by the type-specific helpers; only the auto rules
    set the [auto_decline] key. *)
Record SubRules := {
  sub_passed : list string;
  sub_failed : list string;
  sub_risk_factors : list string;
  sub_auto_decline : option bool
}.

Module UnderwritingRuleEngine.

(** The four local variables that the rules update in sequence. *)
Record Acc := {
  passed : list string;
  failed : list string;
  factors : list string;
  decline : bool
}.

Definition start : Acc :=
  {| passed := []; failed := []; factors := []; decline := false |}.

Definition pass_rule (msg : string) (st : Acc) : Acc :=
  {| passed := passed st ++ [msg]; failed := failed st;
     factors := factors st; decline := decline st |}.

Definition fail_rule (msg : string) (st : Acc) : Acc :=
  {| passed := passed st; failed := failed st ++ [msg];
     factors := factors st; decline := decline st |}.

Definition risk_factor (msg : string) (st : Acc) : Acc :=
  {| passed := passed st; failed := failed st;
     factors := factors st ++ [msg]; decline := decline st |}.

Definition set_auto_decline (st : Acc) : Acc :=
  {| passed := passed st; failed := failed st;
     factors := factors st; decline := true |}.

(** [rules_passed.extend(...)], [rules_failed.extend(...)],
    [risk_factors.extend(...)]. *)
Definition extend (sub : SubRules) (st : Acc) : Acc :=
  {| passed := passed st ++ sub_passed sub;
     failed := failed st ++ sub_failed sub;
     factors := factors st ++ sub_risk_factors sub;
     decline := decline st |}.

Definition _evaluate_auto_rules (applicant : ApplicantData) : SubRules :=
  let st := start in
  let st :=
    match driving_record applicant with
    | None => st
    | Some dr =>
        (* DUI check *)
        let st :=
          if dui_history dr
          then set_auto_decline
                 (risk_factor "DUI history" (fail_rule "DUI/DWI history present" st))
          else pass_rule "No DUI/DWI history" st in
        (* License suspension *)
        let st :=
          if license_suspended dr
          then risk_factor "License suspended" (fail_rule "License suspension history" st)
          else st in
        (* Accidents *)
        let st :=
          if accidents_last_5_years dr >? 3
          then risk_factor "High accident rate"
                 (fail_rule "Excessive accidents (>3 in 5 years)" st)
          else if accidents_last_5_years dr >? 1
          then risk_factor "Multiple accidents" st
          else pass_rule "Acceptable accident history" st in
        (* Violations *)
        let st :=
          if violations_last_3_years dr >? 5
          then risk_factor "Multiple traffic violations"
                 (fail_rule "Excessive violations (>5 in 3 years)" st)
          else if violations_last_3_years dr >? 2
          then risk_factor "Several traffic violations" st
          else pass_rule "Acceptable violation history" st in
        (* Experience *)
        if years_licensed dr <? 2
        then risk_factor "Limited driving experience" st
        else pass_rule "Adequate driving experience" st
    end in
  {| sub_passed := passed st; sub_failed := failed st;
     sub_risk_factors := factors st; sub_auto_decline := Some (decline st) |}.

Definition _evaluate_home_rules (applicant : ApplicantData) : SubRules :=
  let st := start in
  let st :=
    match property_info applicant with
    | None => st
    | Some prop =>
        (* Property age *)
        let st :=
          if property_age prop >? 50
          then risk_factor "Old property (>50 years)" st
          else st in
        (* Construction type *)
        let st :=
          match construction_type prop with
          | wood => risk_factor "Wood construction - fire risk" st
          | _ => pass_rule "Durable construction type" st
          end in
        (* Security system *)
        let st :=
          if security_system prop
          then pass_rule "Security system installed" st
          else risk_factor "No security system" st in
        (* Fire protection *)
        let st :=
          if fire_protection_class prop >? 7
          then risk_factor "Limited fire protection"
                 (fail_rule "Poor fire protection class (>7)" st)
          else if fire_protection_class prop <=? 4
          then pass_rule "Excellent fire protection" st
          else st in
        (* Flood zone *)
        if flood_zone prop
        then risk_factor "Property in flood zone" st
        else st
    end in
  {| sub_passed := passed st; sub_failed := failed st;
     sub_risk_factors := factors st; sub_auto_decline := None |}.

Definition _evaluate_health_rules (applicant : ApplicantData) : SubRules :=
  let st := start in
  (* Smoker status *)
  let st :=
    if flag (smoker applicant)
    then risk_factor "Smoker - increased health risk" st
    else pass_rule "Non-smoker" st in
  (* Pre-existing conditions *)
  let st :=
    if flag (pre_existing_conditions applicant)
    then risk_factor "Pre-existing health conditions" st
    else pass_rule "No pre-existing conditions" st in
  {| sub_passed := passed st; sub_failed := failed st;
     sub_risk_factors := factors st; sub_auto_decline := None |}.

(** The score the credit rule looks at: the bureau's when the check succeeded
    and the answer carries one, the applicant's own otherwise. *)
Definition verified_credit_score
    (applicant : ApplicantData) (external_data : ExternalData) : Z :=
  if ext_credit_verified external_data then
    match ext_credit_data external_data with
    | Some credit_data =>
        match cd_actual_score credit_data with
        | Some actual_score => actual_score
        | None => credit_score applicant
        end
    | None => credit_score applicant
    end
  else credit_score applicant.

Definition evaluate_rules
    (applicant : ApplicantData) (external_data : ExternalData) : RuleResults :=
  let st := start in
  (* Get verified credit score *)
  let credit_score := verified_credit_score applicant external_data in
  (* Rule 1: Credit Score Check *)
  let st :=
    if credit_score <? 550
    then set_auto_decline (fail_rule "Credit score below minimum threshold (550)" st)
    else if credit_score <? 600
    then risk_factor "Low credit score"
           (fail_rule "Credit score in high-risk range (550-600)" st)
    else if credit_score <? 700
    then risk_factor "Below average credit score" st
    else pass_rule "Credit score acceptable" st in
  (* Rule 2: Claims History *)
  let st :=
    if fraud_indicators (claims_history applicant)
    then set_auto_decline (fail_rule "Fraud indicators present in claims history" st)
    else st in
  let st :=
    if claims_last_3_years (claims_history applicant) >? 3
    then risk_factor "High claims frequency"
           (fail_rule "Excessive claims (>3 in last 3 years)" st)
    else if claims_last_3_years (claims_history applicant) >? 1
    then risk_factor "Multiple recent claims" st
    else pass_rule "Claims history acceptable" st in
  (* Rule 3: Age-based assessment *)
  let st :=
    if age applicant <? 21
    then risk_factor "Young applicant (under 21)" st
    else if age applicant >? 75
    then risk_factor "Senior applicant (over 75)" st
    else pass_rule "Age within standard range" st in
  (* Rule 4: Type-specific rules *)
  let st :=
    match insurance_type applicant with
    | AUTO =>
        let auto_rules := _evaluate_auto_rules applicant in
        let st := extend auto_rules st in
        if flag (sub_auto_decline auto_rules) then set_auto_decline st else st
    | HOME => extend (_evaluate_home_rules applicant) st
    | HEALTH | LIFE => extend (_evaluate_health_rules applicant) st
    end in
  (* Rule 5: Coverage amount vs income *)
  let st :=
    if Qlt_le_dec 0%Q (annual_income applicant) then
      let coverage_ratio := (coverage_amount applicant / annual_income applicant)%Q in
      if Qlt_le_dec 10%Q coverage_ratio
      then risk_factor "Coverage amount very high relative to income" st
      else if Qlt_le_dec 5%Q coverage_ratio
      then risk_factor "Coverage amount high relative to income" st
      else st
    else st in
  {| rules_passed := passed st;
     rules_failed := failed st;
     risk_factors := factors st;
     auto_decline := decline st;
     total_rules_evaluated := (List.length (passed st) + List.length (failed st))%nat |}.

End UnderwritingRuleEngine.

(** ** Risk calculator *)

Record PremiumInfo := {
  base_premium : Q;
  premium_with_risk : Q;
  additional_premium : Q;
  total_monthly_premium : Q;
  total_annual_premium : Q
}.

Module RiskCalculator.

Local Open Scope Q_scope.

(** Base premiums by insurance type (monthly). *)
Definition BASE_PREMIUMS (t : InsuranceType) : Q :=
  match t with
  | AUTO => 150
  | HOME => 120
  | LIFE => 80
  | HEALTH => 200
  end.

(** The five local variables of [calculate_risk_score]. *)
Record Components := {
  credit_component : Q;
  claims_component : Q;
  age_component : Q;
  rule_component : Q;
  ml_component : Q
}.

Definition components
    (applicant : ApplicantData) (rule_results : RuleResults) (ml_results : MLResults)
    : Components :=
  {| (* Credit score component (0-30 points, inverted so lower credit = higher risk) *)
     credit_component :=
       Qmax 0 (30 - inject_Z (credit_score applicant - 300)%Z / 550 * 30);
     (* Claims history component (0-20 points) *)
     claims_component :=
       inject_Z (Z.min 20 (claims_last_3_years (claims_history applicant) * 5))%Z;
     (* Age component (0-10 points) *)
     age_component :=
       if ((age applicant <? 25) || (age applicant >? 70))%Z then 10
       else if ((age applicant <? 30) || (age applicant >? 65))%Z then 5
       else 0;
     (* Rule-based component (0-25 points) *)
     rule_component :=
       (let rule_component :=
          (Z.of_nat (List.length (risk_factors rule_results)) * 3)%Z in
        let rule_component :=
          (rule_component + Z.of_nat (List.length (rules_failed rule_results)) * 5)%Z in
        inject_Z (Z.min 25 rule_component));
     (* ML component (0-15 points) if available; a missing [prediction] key
        reads as 0 *)
     ml_component :=
       if ml_available ml_results then
         let prediction :=
           match ml_prediction ml_results with Some p => p | None => 0%Z end in
         inject_Z prediction * 7.5
       else 0 |}.

Definition calculate_risk_score
    (applicant : ApplicantData) (rule_results : RuleResults) (ml_results : MLResults) : Q :=
  let c := components applicant rule_results ml_results in
  (* Total risk score *)
  let risk_score :=
    credit_component c + claims_component c + age_component c
    + rule_component c + ml_component c in
  Qmin 100 (Qmax 0 risk_score).

(** [round(x, 2)] on an exact value: to the nearest hundredth, a tie to the
    even one. *)
Definition round2 (x : Q) : Q :=
  let scaled := (x * 100)%Q in
  let low := Qfloor scaled in
  let rest := (scaled - inject_Z low)%Q in
  let cents :=
    match Qcompare rest (1 # 2) with
    | Lt => low
    | Gt => (low + 1)%Z
    | Eq => if Z.even low then low else (low + 1)%Z
    end in
  Qred (inject_Z cents / 100).

(** The amount that one risk factor adds in the loop of [calculate_premium]:
    the branches are an [if]/[elif] chain, so the first keyword group that
    matches decides. *)
Definition factor_surcharge (base_premium : Q) (factor : string) : Q :=
  if PyStr.str_in "DUI" factor || PyStr.str_in "fraud" (PyStr.lower factor)
  then base_premium * 0.5
  else if PyStr.str_in "accident" (PyStr.lower factor)
          || PyStr.str_in "claims" (PyStr.lower factor)
  then base_premium * 0.2
  else if PyStr.str_in "credit" (PyStr.lower factor)
  then base_premium * 0.15
  else 0.

(** The loop over [risk_factors], from [additional_premium = 0]. *)
Definition surcharges (base_premium : Q) (risk_factors : list string) : Q :=
  fold_left (fun additional_premium factor =>
               (additional_premium + factor_surcharge base_premium factor)%Q)
            risk_factors 0.

Definition calculate_premium
    (applicant : ApplicantData) (risk_score : Q) (risk_factors : list string)
    : PremiumInfo :=
  let base_premium := BASE_PREMIUMS (insurance_type applicant) in
  (* Risk-based multiplier (1.0 to 3.0) *)
  let risk_multiplier := (1.0 + (risk_score / 100) * 2.0)%Q in
  (* Calculate base with risk *)
  let premium_with_risk := (base_premium * risk_multiplier)%Q in
  (* Additional premium for specific risk factors *)
  let additional_premium := surcharges base_premium risk_factors in
  let total_premium := (premium_with_risk + additional_premium)%Q in
  {| base_premium := round2 base_premium;
     premium_with_risk := round2 premium_with_risk;
     additional_premium := round2 additional_premium;
     total_monthly_premium := round2 total_premium;
     total_annual_premium := round2 (total_premium * 12) |}.

End RiskCalculator.


(** ** The underwriting tool *)

(** The dictionary returned by [_make_decision]. *)
Record DecisionResult := {
  decision : UnderwritingDecision;
  risk_level : RiskLevel;
  risk_score : Q;
  approved : bool;
  decision_reasons : list string;
  conditions : list string;
  exclusions : list string;
  premium_info : option PremiumInfo;
  res_credit_verified : bool;
  res_external_sources : list string
}.

(** What one request meets outside the program: the two random draws of the
    simulated services (or the exception raised in their [try] block) and the
    classifier of the process, if there is one. *)
Record Env := {
  env_credit_draw : outcome Z;
  env_dmv_draw : outcome Z;
  env_model : option UnderwritingMLModel.Model
}.

Module UnderwritingTool.

(** [external_data['external_sources'].append(d['source'])] under
    [if d.get('source')]. *)
Definition append_source (source : option string) (sources : list string) : list string :=
  match source with
  | Some s => if PyStr.truthy s then sources ++ [s] else sources
  | None => sources
  end.

Definition _verify_external_data (env : Env) (applicant : ApplicantData) : ExternalData :=
  (* Verify credit score *)
  let credit_data :=
    ExternalDataAPI.verify_credit_score (env_credit_draw env) (credit_score applicant) in
  let sources := append_source (cd_source credit_data) [] in
  (* Verify driving record for auto insurance *)
  match insurance_type applicant with
  | AUTO =>
      let dmv_data := ExternalDataAPI.fetch_driving_record (env_dmv_draw env) in
      {| ext_credit_verified := cd_verified credit_data;
         ext_driving_verified := dmv_data_available dmv_data;
         ext_external_sources := append_source (dmv_source dmv_data) sources;
         ext_credit_data := Some credit_data;
         ext_dmv_data := Some dmv_data |}
  | _ =>
      {| ext_credit_verified := cd_verified credit_data;
         ext_driving_verified := false;
         ext_external_sources := sources;
         ext_credit_data := Some credit_data;
         ext_dmv_data := None |}
  end.

Definition _get_ml_prediction (env : Env) (applicant : ApplicantData) : MLResults :=
  (* Prepare features *)
  let years_licensed :=
    match driving_record applicant with
    | Some dr => years_licensed dr
    | None => if age applicant >=? 18 then age applicant - 18 else 0
    end in
  let features :=
    {| f_credit_score := credit_score applicant;
       f_age := age applicant;
       f_claims_count := claims_last_3_years (claims_history applicant);
       f_coverage_amount_normalized := Qmin 1.0 (coverage_amount applicant / 100000);
       f_years_licensed := years_licensed |} in
  UnderwritingMLModel.predict_risk (env_model env) features.

Definition _create_decline_decision
    (applicant : ApplicantData) (risk_score : Q) (rule_results : RuleResults)
    : DecisionResult :=
  let reasons := (["Application declined due to:"] ++ rules_failed rule_results)%list in
  {| decision := DECLINED;
     risk_level := VERY_HIGH;
     risk_score := risk_score;
     approved := false;
     decision_reasons := reasons;
     conditions := [];
     exclusions := [];
     premium_info := None;
     res_credit_verified := false;
     res_external_sources := [] |}.

(** The exclusions that one risk factor appends: four independent tests. *)
Definition factor_exclusions (factor : string) : list string :=
  ((if PyStr.str_in "accident" (PyStr.lower factor)
   then ["Accident forgiveness not available"] else [])
  ++ (if PyStr.str_in "violation" (PyStr.lower factor)
      then ["Traffic violation surcharge waiver not available"] else [])
  ++ (if PyStr.str_in "flood" (PyStr.lower factor)
      then ["Flood damage excluded (separate flood insurance required)"] else [])
  ++ (if PyStr.str_in "credit" (PyStr.lower factor)
      then ["Premium payment plan restrictions may apply"] else []))%list.

(** [list(set(exclusions))]: the order of the result is not fixed by Python;
    here the last occurrence of each entry stays. *)
Definition _determine_exclusions
    (applicant : ApplicantData) (rule_results : RuleResults) : list string :=
  nodup string_dec (flat_map factor_exclusions (risk_factors rule_results)).

(** The final [return] of [_make_decision]. *)
Definition compose
    (decision : UnderwritingDecision) (risk_level : RiskLevel) (risk_score : Q)
    (decision_reasons conditions exclusions : list string)
    (premium_info : option PremiumInfo) (external_data : ExternalData)
    : DecisionResult :=
  {| decision := decision;
     risk_level := risk_level;
     risk_score := risk_score;
     approved :=
       existsb (UnderwritingDecision_eqb decision) [APPROVED; APPROVED_WITH_CONDITIONS];
     decision_reasons := decision_reasons;
     conditions := conditions;
     exclusions := exclusions;
     premium_info := premium_info;
     res_credit_verified := ext_credit_verified external_data;
     res_external_sources := ext_external_sources external_data |}.

(** Determine risk level. *)
Definition classify (risk_score : Q) : RiskLevel :=
  if Qlt_le_dec risk_score 30 then LOW
  else if Qlt_le_dec risk_score 50 then MEDIUM
  else if Qlt_le_dec risk_score 70 then HIGH
  else VERY_HIGH.

Definition _make_decision
    (applicant : ApplicantData) (risk_score : Q) (rule_results : RuleResults)
    (ml_results : MLResults) (external_data : ExternalData) : DecisionResult :=
  (* Auto decline conditions *)
  if auto_decline rule_results
  then _create_decline_decision applicant risk_score rule_results
  else
    let risk_level := classify risk_score in
    (* Calculate premium *)
    let premium_info :=
      RiskCalculator.calculate_premium applicant risk_score (risk_factors rule_results) in
    (* Decision logic *)
    match risk_level with
    | LOW =>
        compose APPROVED risk_level risk_score
          ["Low risk profile"; "Good credit history"; "Clean claims record"]
          ["Standard policy terms apply"]
          []
          (Some premium_info) external_data
    | MEDIUM =>
        compose APPROVED risk_level risk_score
          (["Moderate risk profile"; "Acceptable underwriting criteria met"]
           ++ (if (0 <? List.length (risk_factors rule_results))%nat
               then ["Some risk factors present"] else []))%list
          ["Standard policy terms apply"; "Annual policy review required"]
          []
          (Some premium_info) external_data
    | HIGH =>
        compose APPROVED_WITH_CONDITIONS risk_level risk_score
          ["High risk profile";
           ("Risk factors identified: "
            ++ PyStr.str_of_nat (List.length (risk_factors rule_results)))%string]
          ["Higher deductible required";
           "Six-month policy review";
           "No coverage for first 30 days";
           "Additional documentation required annually"]
          (_determine_exclusions applicant rule_results)
          (Some premium_info) external_data
    | VERY_HIGH =>
        if Qlt_le_dec 85 risk_score
        then _create_decline_decision applicant risk_score rule_results
        else
          compose REFER_TO_MANUAL_REVIEW risk_level risk_score
            ["Very high risk profile";
             "Requires senior underwriter approval";
             "Additional information needed"]
            ["Manual underwriting review required"]
            []
            None (* No premium until manual review *)
            external_data
    end.

(** Steps 1 to 5 of [_run], for an applicant that passed validation. *)
Definition assess (env : Env) (applicant : ApplicantData) : DecisionResult :=
  (* Step 1: External data verification *)
  let external_data := _verify_external_data env applicant in
  (* Step 2: Rule engine evaluation *)
  let rule_results := UnderwritingRuleEngine.evaluate_rules applicant external_data in
  (* Step 3: ML model prediction *)
  let ml_results := _get_ml_prediction env applicant in
  (* Step 4: Calculate risk score *)
  let risk_score := RiskCalculator.calculate_risk_score applicant rule_results ml_results in
  (* Step 5: Make decision *)
  _make_decision applicant risk_score rule_results ml_results external_data.

End UnderwritingTool.


(** ** Construction of an applicant from a raw record

    The constructor call of [ApplicantData] on the parsed mapping in [_run]
    is run by pydantic: every field of
    the class is validated against its [Field(...)] declaration and the
    errors of all fields are gathered into one [ValidationError]; the
    [model_validator(mode='after')] runs on the built object only when no
    field failed, and its [ValueError] becomes a [ValidationError] with that
    single entry. *)

(** A key of the raw mapping: not there (for an [Optional] field also: there
    with [null]), there with a value that the field's type does not accept,
    or there with a value of that type. *)
Inductive raw (A : Type) :=
| Absent
| Malformed
| Given (a : A).
Arguments Absent {A}.
Arguments Malformed {A}.
Arguments Given {A} a.

Record RawClaimsHistory := {
  raw_total_claims : raw Z;
  raw_claims_last_3_years : raw Z;
  raw_total_claimed_amount : raw Q;
  raw_fraud_indicators : raw bool
}.

Record RawDrivingRecord := {
  raw_years_licensed : raw Z;
  raw_accidents_last_5_years : raw Z;
  raw_violations_last_3_years : raw Z;
  raw_dui_history : raw bool;
  raw_license_suspended : raw bool
}.

Record RawPropertyInfo := {
  raw_property_age : raw Z;
  raw_construction_type : raw string;
  raw_security_system : raw bool;
  raw_fire_protection_class : raw Z;
  raw_flood_zone : raw bool
}.

Record RawApplicant := {
  raw_applicant_id : raw string;
  raw_name : raw string;
  raw_age : raw Z;
  raw_credit_score : raw Z;
  raw_annual_income : raw Q;
  raw_employment_status : raw string;
  raw_insurance_type : raw string;
  raw_coverage_amount : raw Q;
  raw_claims_history : raw RawClaimsHistory;
  raw_driving_record : raw RawDrivingRecord;
  raw_property_info : raw RawPropertyInfo;
  raw_smoker : raw bool;
  raw_pre_existing_conditions : raw bool
}.

(** One entry of a [ValidationError]. *)
Inductive ErrorKind :=
| missing
| wrong_type
| greater_than_equal (bound : Q)
| less_than_equal (bound : Q)
| string_too_short (min_length : nat)
| literal_error
| enum_error
| value_error (msg : string).

Record ErrorDetail := {
  err_loc : list string;
  err_kind : ErrorKind
}.

Module Pydantic.

(** Either the errors found so far or a value. *)
Definition checked (A : Type) : Type := (list ErrorDetail + A)%type.

Definition ok {A} (a : A) : checked A := inr a.

Definition fail {A} (loc : list string) (k : ErrorKind) : checked A :=
  inl [ {| err_loc := loc; err_kind := k |} ].

(** Fields are validated one after the other and all errors are kept. *)
Definition ap {A B} (f : checked (A -> B)) (x : checked A) : checked B :=
  match f, x with
  | inr g, inr a => inr (g a)
  | inr _, inl ex => inl ex
  | inl ef, inr _ => inl ef
  | inl ef, inl ex => inl (ef ++ ex)%list
  end.

Definition errors_of {A} (c : checked A) : list ErrorDetail :=
  match c with
  | inl errors => errors
  | inr _ => []
  end.

(** [Field(...)]: a required field. *)
Definition required {A B} (loc : list string) (v : raw A) (check : A -> checked B)
    : checked B :=
  match v with
  | Absent => fail loc missing
  | Malformed => fail loc wrong_type
  | Given a => check a
  end.

(** [Field(default=d)]. *)
Definition with_default {A} (d : A) (loc : list string) (v : raw A) : checked A :=
  match v with
  | Absent => ok d
  | Malformed => fail loc wrong_type
  | Given a => ok a
  end.

(** [Optional[...] = Field(None)]. *)
Definition optional {A B} (loc : list string) (v : raw A) (check : A -> checked B)
    : checked (option B) :=
  match v with
  | Absent => ok None
  | Malformed => fail loc wrong_type
  | Given a =>
      match check a with
      | inl errors => inl errors
      | inr b => ok (Some b)
      end
  end.

Definition ge_int (l : Z) (loc : list string) (n : Z) : checked Z :=
  if n <? l then fail loc (greater_than_equal (inject_Z l)) else ok n.

Definition ge_le_int (l h : Z) (loc : list string) (n : Z) : checked Z :=
  if n <? l then fail loc (greater_than_equal (inject_Z l))
  else if n >? h then fail loc (less_than_equal (inject_Z h))
  else ok n.

Definition ge_float (l : Q) (loc : list string) (x : Q) : checked Q :=
  if Qlt_le_dec x l then fail loc (greater_than_equal l) else ok x.

Definition min_length (k : nat) (loc : list string) (s : string) : checked string :=
  if (String.length s <? k)%nat then fail loc (string_too_short k) else ok s.

Fixpoint lookup {A} (table : list (string * A)) (s : string) : option A :=
  match table with
  | [] => None
  | (key, a) :: rest => if String.eqb key s then Some a else lookup rest s
  end.

(** [Literal[...]] and [str]-valued [Enum] fields. *)
Definition one_of {A} (k : ErrorKind) (table : list (string * A))
    (loc : list string) (s : string) : checked A :=
  match lookup table s with
  | Some a => ok a
  | None => fail loc k
  end.

Definition employment_statuses : list (string * EmploymentStatus) :=
  [("employed", employed); ("self_employed", self_employed);
   ("unemployed", unemployed); ("retired", retired)].

Definition construction_types : list (string * ConstructionType) :=
  [("wood", wood); ("brick", brick); ("concrete", concrete); ("mixed", mixed)].

Definition insurance_types : list (string * InsuranceType) :=
  [("auto", AUTO); ("home", HOME); ("life", LIFE); ("health", HEALTH)].

(** [InsuranceType.value]. *)
Definition value (t : InsuranceType) : string :=
  match t with
  | AUTO => "auto"
  | HOME => "home"
  | LIFE => "life"
  | HEALTH => "health"
  end.

Declare Scope checked_scope.
Delimit Scope checked_scope with checked.
Notation "f <*> x" := (ap f x) (at level 61, left associativity) : checked_scope.
Local Open Scope checked_scope.

Definition ClaimsHistory_fields (loc : list string) (r : RawClaimsHistory)
    : checked ClaimsHistory :=
  ok Build_ClaimsHistory
  <*> required (loc ++ ["total_claims"]) (raw_total_claims r)
        (ge_int 0 (loc ++ ["total_claims"]))
  <*> required (loc ++ ["claims_last_3_years"]) (raw_claims_last_3_years r)
        (ge_int 0 (loc ++ ["claims_last_3_years"]))
  <*> required (loc ++ ["total_claimed_amount"]) (raw_total_claimed_amount r)
        (ge_float 0 (loc ++ ["total_claimed_amount"]))
  <*> with_default false (loc ++ ["fraud_indicators"]) (raw_fraud_indicators r).

Definition DrivingRecord_fields (loc : list string) (r : RawDrivingRecord)
    : checked DrivingRecord :=
  ok Build_DrivingRecord
  <*> required (loc ++ ["years_licensed"]) (raw_years_licensed r)
        (ge_int 0 (loc ++ ["years_licensed"]))
  <*> required (loc ++ ["accidents_last_5_years"]) (raw_accidents_last_5_years r)
        (ge_int 0 (loc ++ ["accidents_last_5_years"]))
  <*> required (loc ++ ["violations_last_3_years"]) (raw_violations_last_3_years r)
        (ge_int 0 (loc ++ ["violations_last_3_years"]))
  <*> with_default false (loc ++ ["dui_history"]) (raw_dui_history r)
  <*> with_default false (loc ++ ["license_suspended"]) (raw_license_suspended r).

Definition PropertyInfo_fields (loc : list string) (r : RawPropertyInfo)
    : checked PropertyInfo :=
  ok Build_PropertyInfo
  <*> required (loc ++ ["property_age"]) (raw_property_age r)
        (ge_int 0 (loc ++ ["property_age"]))
  <*> required (loc ++ ["construction_type"]) (raw_construction_type r)
        (one_of literal_error construction_types (loc ++ ["construction_type"]))
  <*> with_default false (loc ++ ["security_system"]) (raw_security_system r)
  <*> required (loc ++ ["fire_protection_class"]) (raw_fire_protection_class r)
        (ge_le_int 1 10 (loc ++ ["fire_protection_class"]))
  <*> with_default false (loc ++ ["flood_zone"]) (raw_flood_zone r).

(** The field validation of [ApplicantData], in the order of the class. *)
Definition ApplicantData_fields (r : RawApplicant) : checked ApplicantData :=
  ok Build_ApplicantData
  <*> required ["applicant_id"] (raw_applicant_id r) ok
  <*> required ["name"] (raw_name r) (min_length 2 ["name"])
  <*> required ["age"] (raw_age r) (ge_le_int 18 100 ["age"])
  <*> required ["credit_score"] (raw_credit_score r) (ge_le_int 300 850 ["credit_score"])
  <*> required ["annual_income"] (raw_annual_income r) (ge_float 0 ["annual_income"])
  <*> required ["employment_status"] (raw_employment_status r)
        (one_of literal_error employment_statuses ["employment_status"])
  <*> required ["insurance_type"] (raw_insurance_type r)
        (one_of enum_error insurance_types ["insurance_type"])
  <*> required ["coverage_amount"] (raw_coverage_amount r)
        (ge_float 0 ["coverage_amount"])
  <*> required ["claims_history"] (raw_claims_history r)
        (ClaimsHistory_fields ["claims_history"])
  <*> optional ["driving_record"] (raw_driving_record r)
        (DrivingRecord_fields ["driving_record"])
  <*> optional ["property_info"] (raw_property_info r)
        (PropertyInfo_fields ["property_info"])
  <*> optional ["smoker"] (raw_smoker r) ok
  <*> optional ["pre_existing_conditions"] (raw_pre_existing_conditions r) ok.

(** The [model_validator(mode='after')] of [ApplicantData]: the first test
    that fails raises. *)
Definition validate_type_specific_data (self : ApplicantData) : outcome ApplicantData :=
  match insurance_type self, driving_record self with
  | AUTO, None => Raised "Driving record is required for auto insurance"
  | _, _ =>
      match insurance_type self, property_info self with
      | HOME, None => Raised "Property information is required for home insurance"
      | _, _ =>
          match insurance_type self, smoker self with
          | (HEALTH | LIFE), None =>
              Raised ("Smoker status is required for "
                      ++ value (insurance_type self) ++ " insurance")%string
          | _, _ => Returned self
          end
      end
  end.

(** The constructor call of [ApplicantData] on the parsed mapping. *)
Definition construct (r : RawApplicant) : checked ApplicantData :=
  match ApplicantData_fields r with
  | inl errors => inl errors
  | inr self =>
      match validate_type_specific_data self with
      | Returned applicant => inr applicant
      | Raised msg => fail [] (value_error msg)
      end
  end.

End Pydantic.

(** What [_run] hands back: the validation failure, or the report on the
    decision (here the decision itself, before it is laid out as text). *)
Inductive RunResult :=
| ValidationFailed (errors : list ErrorDetail)
| Report (decision_result : DecisionResult).

(** [_run] on a parsed mapping. *)
Definition _run (env : Env) (applicant_data_dict : RawApplicant) : RunResult :=
  match Pydantic.construct applicant_data_dict with
  | inl validation_error => ValidationFailed validation_error
  | inr applicant => Report (UnderwritingTool.assess env applicant)
  end.


(** ** Notions used by the statements below *)

(** *** Surcharge keyword groups of [calculate_premium] *)

Inductive SurchargeCategory := DuiFraud | AccidentClaims | Credit.

(** The keyword test of each group, as written in the three conditions. *)
Definition matches (c : SurchargeCategory) (factor : string) : bool :=
  match c with
  | DuiFraud => PyStr.str_in "DUI" factor || PyStr.str_in "fraud" (PyStr.lower factor)
  | AccidentClaims =>
      PyStr.str_in "accident" (PyStr.lower factor)
      || PyStr.str_in "claims" (PyStr.lower factor)
  | Credit => PyStr.str_in "credit" (PyStr.lower factor)
  end.

Definition category_surcharge (base_premium : Q) (c : SurchargeCategory) : Q :=
  match c with
  | DuiFraud => base_premium * 0.5
  | AccidentClaims => base_premium * 0.2
  | Credit => base_premium * 0.15
  end.

(** The sum of the surcharges of a set of groups. *)
Definition surcharge_of_set (base_premium : Q) (chosen : SurchargeCategory -> bool) : Q :=
  ((if chosen DuiFraud then category_surcharge base_premium DuiFraud else 0)
   + (if chosen AccidentClaims then category_surcharge base_premium AccidentClaims else 0)
   + (if chosen Credit then category_surcharge base_premium Credit else 0))%Q.

(** One factor is double-counted when what the loop adds for it is the sum of
    the surcharges of two or more groups that it matches. *)
Definition double_counted (base_premium : Q) (factor : string) : Prop :=
  exists chosen : SurchargeCategory -> bool,
    (forall c, chosen c = true -> matches c factor = true)
    /\ (exists c1 c2, c1 <> c2 /\ chosen c1 = true /\ chosen c2 = true)
    /\ (RiskCalculator.surcharges base_premium [factor]
        == surcharge_of_set base_premium chosen)%Q.

(** The first group, in the order of the conditions, that a factor matches. *)
Definition first_match (factor : string) : option SurchargeCategory :=
  if matches DuiFraud factor then Some DuiFraud
  else if matches AccidentClaims factor then Some AccidentClaims
  else if matches Credit factor then Some Credit
  else None.

(** *** Violated constraints of a raw record *)

Module Constraints.

Import Pydantic.

Definition ClaimsHistory_violations (loc : list string) (r : RawClaimsHistory)
    : list ErrorDetail :=
  (errors_of (required (loc ++ ["total_claims"]) (raw_total_claims r)
                (ge_int 0 (loc ++ ["total_claims"])))
   ++ errors_of (required (loc ++ ["claims_last_3_years"]) (raw_claims_last_3_years r)
                   (ge_int 0 (loc ++ ["claims_last_3_years"])))
   ++ errors_of (required (loc ++ ["total_claimed_amount"]) (raw_total_claimed_amount r)
                   (ge_float 0 (loc ++ ["total_claimed_amount"])))
   ++ errors_of (with_default false (loc ++ ["fraud_indicators"])
                   (raw_fraud_indicators r)))%list.

Definition DrivingRecord_violations (loc : list string) (r : RawDrivingRecord)
    : list ErrorDetail :=
  (errors_of (required (loc ++ ["years_licensed"]) (raw_years_licensed r)
                (ge_int 0 (loc ++ ["years_licensed"])))
   ++ errors_of (required (loc ++ ["accidents_last_5_years"])
                   (raw_accidents_last_5_years r)
                   (ge_int 0 (loc ++ ["accidents_last_5_years"])))
   ++ errors_of (required (loc ++ ["violations_last_3_years"])
                   (raw_violations_last_3_years r)
                   (ge_int 0 (loc ++ ["violations_last_3_years"])))
   ++ errors_of (with_default false (loc ++ ["dui_history"]) (raw_dui_history r))
   ++ errors_of (with_default false (loc ++ ["license_suspended"])
                   (raw_license_suspended r)))%list.

Definition PropertyInfo_violations (loc : list string) (r : RawPropertyInfo)
    : list ErrorDetail :=
  (errors_of (required (loc ++ ["property_age"]) (raw_property_age r)
                (ge_int 0 (loc ++ ["property_age"])))
   ++ errors_of (required (loc ++ ["construction_type"]) (raw_construction_type r)
                   (one_of literal_error construction_types
                      (loc ++ ["construction_type"])))
   ++ errors_of (with_default false (loc ++ ["security_system"])
                   (raw_security_system r))
   ++ errors_of (required (loc ++ ["fire_protection_class"])
                   (raw_fire_protection_class r)
                   (ge_le_int 1 10 (loc ++ ["fire_protection_class"])))
   ++ errors_of (with_default false (loc ++ ["flood_zone"]) (raw_flood_zone r)))%list.

(** The violations of a nested record: of the key itself, or of its fields. *)
Definition nested {A} (must : bool) (loc : list string) (v : raw A)
    (inner : list string -> A -> list ErrorDetail) : list ErrorDetail :=
  match v with
  | Absent => if must then [ {| err_loc := loc; err_kind := missing |} ] else []
  | Malformed => [ {| err_loc := loc; err_kind := wrong_type |} ]
  | Given a => inner loc a
  end.

(** Every field constraint that the record violates, field by field. *)
Definition field_violations (r : RawApplicant) : list ErrorDetail :=
  (errors_of (required ["applicant_id"] (raw_applicant_id r) (@ok string))
   ++ errors_of (required ["name"] (raw_name r) (min_length 2 ["name"]))
   ++ errors_of (required ["age"] (raw_age r) (ge_le_int 18 100 ["age"]))
   ++ errors_of (required ["credit_score"] (raw_credit_score r)
                   (ge_le_int 300 850 ["credit_score"]))
   ++ errors_of (required ["annual_income"] (raw_annual_income r)
                   (ge_float 0 ["annual_income"]))
   ++ errors_of (required ["employment_status"] (raw_employment_status r)
                   (one_of literal_error employment_statuses ["employment_status"]))
   ++ errors_of (required ["insurance_type"] (raw_insurance_type r)
                   (one_of enum_error insurance_types ["insurance_type"]))
   ++ errors_of (required ["coverage_amount"] (raw_coverage_amount r)
                   (ge_float 0 ["coverage_amount"]))
   ++ nested true ["claims_history"] (raw_claims_history r) ClaimsHistory_violations
   ++ nested false ["driving_record"] (raw_driving_record r) DrivingRecord_violations
   ++ nested false ["property_info"] (raw_property_info r) PropertyInfo_violations
   ++ errors_of (optional ["smoker"] (raw_smoker r) (@ok bool))
   ++ errors_of (optional ["pre_existing_conditions"] (raw_pre_existing_conditions r)
                   (@ok bool)))%list.

Definition requirement (msg : string) : ErrorDetail :=
  {| err_loc := []; err_kind := value_error msg |}.

Definition absent {A} (v : raw A) : bool :=
  match v with Absent => true | _ => false end.

(** The requirement that depends on the insurance type: a driving record
    for auto, property information for home, the smoker flag for health and
    life. *)
Definition type_specific_violations (r : RawApplicant) : list ErrorDetail :=
  match raw_insurance_type r with
  | Given t =>
      if String.eqb "auto" t then
        if absent (raw_driving_record r)
        then [requirement "Driving record is required for auto insurance"] else []
      else if String.eqb "home" t then
        if absent (raw_property_info r)
        then [requirement "Property information is required for home insurance"] else []
      else if String.eqb "life" t || String.eqb "health" t then
        if absent (raw_smoker r)
        then [requirement ("Smoker status is required for " ++ t ++ " insurance")%string]
        else []
      else []
  | _ => []
  end.

(** Every constraint that the record violates. *)
Definition violated_constraints (r : RawApplicant) : list ErrorDetail :=
  (field_violations r ++ type_specific_violations r)%list.

(** What a failed construction reports. *)
Definition reported (r : RawApplicant) : list ErrorDetail :=
  errors_of (construct r).

(** A failure always carries at least one error. *)
Definition informative {A} (c : checked A) : Prop :=
  match c with
  | inl errors => errors <> []
  | inr _ => True
  end.

End Constraints.

(** *** Applicants that passed construction *)

Definition valid_ClaimsHistory (c : ClaimsHistory) : Prop :=
  0 <= total_claims c /\ 0 <= claims_last_3_years c /\ (0 <= total_claimed_amount c)%Q.

Definition valid_DrivingRecord (d : DrivingRecord) : Prop :=
  0 <= years_licensed d /\ 0 <= accidents_last_5_years d
  /\ 0 <= violations_last_3_years d.

Definition valid_PropertyInfo (p : PropertyInfo) : Prop :=
  0 <= property_age p /\ 1 <= fire_protection_class p <= 10.

Definition type_specific_data (a : ApplicantData) : Prop :=
  match insurance_type a with
  | AUTO => driving_record a <> None
  | HOME => property_info a <> None
  | HEALTH | LIFE => smoker a <> None
  end.

Definition valid_applicant (a : ApplicantData) : Prop :=
  (2 <= String.length (name a))%nat
  /\ 18 <= age a <= 100
  /\ 300 <= credit_score a <= 850
  /\ (0 <= annual_income a)%Q
  /\ (0 <= coverage_amount a)%Q
  /\ valid_ClaimsHistory (claims_history a)
  /\ (forall d, driving_record a = Some d -> valid_DrivingRecord d)
  /\ (forall p, property_info a = Some p -> valid_PropertyInfo p)
  /\ type_specific_data a.

(** *** Sample inputs *)

Module Samples.

Definition no_claims : ClaimsHistory :=
  {| total_claims := 1; claims_last_3_years := 0;
     total_claimed_amount := 5000; fraud_indicators := false |}.

Definition clean_record : DrivingRecord :=
  {| years_licensed := 15; accidents_last_5_years := 0; violations_last_3_years := 1;
     dui_history := false; license_suspended := false |}.

(** The good auto applicant of [example_usage]. *)
Definition good_auto : ApplicantData :=
  {| applicant_id := "APP-2025-001"; name := "John Smith"; age := 35;
     credit_score := 750; annual_income := 75000; employment_status := employed;
     insurance_type := AUTO; coverage_amount := 100000;
     claims_history := no_claims;
     driving_record := Some clean_record; property_info := None;
     smoker := None; pre_existing_conditions := None |}.

(** The same applicant with a fraud indicator in the claims history. *)
Definition fraud_auto : ApplicantData :=
  {| applicant_id := "APP-2025-001"; name := "John Smith"; age := 35;
     credit_score := 750; annual_income := 75000; employment_status := employed;
     insurance_type := AUTO; coverage_amount := 100000;
     claims_history :=
       {| total_claims := 1; claims_last_3_years := 0;
          total_claimed_amount := 5000; fraud_indicators := true |};
     driving_record := Some clean_record; property_info := None;
     smoker := None; pre_existing_conditions := None |}.

(** An applicant whose own credit score is 560. *)
Definition low_credit_auto : ApplicantData :=
  {| applicant_id := "APP-2025-004"; name := "Ann Lee"; age := 40;
     credit_score := 560; annual_income := 50000; employment_status := employed;
     insurance_type := AUTO; coverage_amount := 100000;
     claims_history := no_claims;
     driving_record := Some clean_record; property_info := None;
     smoker := None; pre_existing_conditions := None |}.

(** Both services answer, no classifier. *)
Definition env_ok : Env :=
  {| env_credit_draw := Returned 5; env_dmv_draw := Returned 0; env_model := None |}.

(** The credit bureau call fails. *)
Definition env_credit_down : Env :=
  {| env_credit_draw := Raised "connection refused"; env_dmv_draw := Returned 0;
     env_model := None |}.

Definition no_rules : RuleResults :=
  {| rules_passed := []; rules_failed := []; risk_factors := [];
     auto_decline := false; total_rules_evaluated := 0 |}.

Definition declining_rules : RuleResults :=
  {| rules_passed := []; rules_failed := ["Fraud indicators present in claims history"];
     risk_factors := []; auto_decline := true; total_rules_evaluated := 1 |}.

Definition verified : ExternalData :=
  {| ext_credit_verified := true; ext_driving_verified := true;
     ext_external_sources := ["Experian (Simulated)"; "DMV (Simulated)"];
     ext_credit_data := Some (ExternalDataAPI.verify_credit_score (Returned 5) 750);
     ext_dmv_data := Some (ExternalDataAPI.fetch_driving_record (Returned 0)) |}.

(** External data that differ in the bureau's score only. *)
Definition bureau_says (actual_score : Z) : ExternalData :=
  {| ext_credit_verified := true; ext_driving_verified := true;
     ext_external_sources := ["Experian (Simulated)"; "DMV (Simulated)"];
     ext_credit_data :=
       Some {| cd_status := "success"; cd_verified := true;
               cd_reported_score := Some 560; cd_actual_score := Some actual_score;
               cd_score_difference := Some (Z.abs (actual_score - 560));
               cd_source := Some "Experian (Simulated)";
               cd_error := None; cd_fallback := None |};
     ext_dmv_data := Some (ExternalDataAPI.fetch_driving_record (Returned 0)) |}.

(** A raw record that is under age and asks for auto insurance without a
    driving record. *)
Definition under_age_no_record : RawApplicant :=
  {| raw_applicant_id := Given "APP-2025-005";
     raw_name := Given "Test User";
     raw_age := Given 17;
     raw_credit_score := Given 700;
     raw_annual_income := Given 50000%Q;
     raw_employment_status := Given "employed";
     raw_insurance_type := Given "auto";
     raw_coverage_amount := Given 100000%Q;
     raw_claims_history :=
       Given {| raw_total_claims := Given 0; raw_claims_last_3_years := Given 0;
                raw_total_claimed_amount := Given 0%Q;
                raw_fraud_indicators := Given false |};
     raw_driving_record := Absent;
     raw_property_info := Absent;
     raw_smoker := Absent;
     raw_pre_existing_conditions := Absent |}.

(** The record of [test_missing_driving_record]: all fields fine, no driving
    record. *)
Definition no_record : RawApplicant :=
  {| raw_applicant_id := Given "TEST-003";
     raw_name := Given "Test User";
     raw_age := Given 30;
     raw_credit_score := Given 700;
     raw_annual_income := Given 50000%Q;
     raw_employment_status := Given "employed";
     raw_insurance_type := Given "auto";
     raw_coverage_amount := Given 50000%Q;
     raw_claims_history :=
       Given {| raw_total_claims := Given 0; raw_claims_last_3_years := Given 0;
                raw_total_claimed_amount := Given 0%Q;
                raw_fraud_indicators := Given false |};
     raw_driving_record := Absent;
     raw_property_info := Absent;
     raw_smoker := Absent;
     raw_pre_existing_conditions := Absent |}.

End Samples.


(** * Properties *)

(** ** The rule engine *)

Section RuleEngineFacts.

Import UnderwritingRuleEngine.

Lemma decline_pass_rule msg st : decline (pass_rule msg st) = decline st.
Proof. reflexivity. Qed.

Lemma decline_fail_rule msg st : decline (fail_rule msg st) = decline st.
Proof. reflexivity. Qed.

Lemma decline_risk_factor msg st : decline (risk_factor msg st) = decline st.
Proof. reflexivity. Qed.

Lemma decline_extend sub st : decline (extend sub st) = decline st.
Proof. reflexivity. Qed.

Lemma decline_set st : decline (set_auto_decline st) = true.
Proof. reflexivity. Qed.

(** Peels the rules from the last one inwards until a rule that sets the
    flag is met. *)
Ltac peel :=
  repeat first
    [ rewrite decline_set
    | rewrite decline_pass_rule
    | rewrite decline_fail_rule
    | rewrite decline_risk_factor
    | rewrite decline_extend
    | match goal with
      | |- decline (if ?c then _ else _) = true => destruct c
      | |- decline (match ?x with _ => _ end) = true => destruct x
      end ];
  try reflexivity.

(** Rule 2: a fraud indicator sets the aggregate flag, whatever the other
    rules record afterwards. *)
Lemma fraud_sets_auto_decline applicant external_data :
  fraud_indicators (claims_history applicant) = true ->
  auto_decline (evaluate_rules applicant external_data) = true.
Proof.
  intros Hfraud. unfold evaluate_rules. cbv zeta. rewrite Hfraud.
  cbn [auto_decline]. peel.
Qed.

(** The credit rule reads the bureau's score when there is one. *)
Lemma credit_rule_reads_verified_score applicant external_data :
  verified_credit_score applicant external_data < 550 ->
  auto_decline (evaluate_rules applicant external_data) = true.
Proof.
  intros Hlow. unfold evaluate_rules. cbv zeta.
  apply Z.ltb_lt in Hlow. rewrite Hlow.
  cbn [auto_decline]. peel.
Qed.

End RuleEngineFacts.


(** ** The decision step *)

Section DecisionFacts.

Import UnderwritingTool.

Lemma classify_low score : (score < 30)%Q -> classify score = LOW.
Proof. intros H. unfold classify. destruct (Qlt_le_dec score 30); [reflexivity | lra]. Qed.

Lemma classify_medium score : (30 <= score < 50)%Q -> classify score = MEDIUM.
Proof.
  intros [H1 H2]. unfold classify.
  destruct (Qlt_le_dec score 30); [lra |].
  destruct (Qlt_le_dec score 50); [reflexivity | lra].
Qed.

Lemma classify_high score : (50 <= score < 70)%Q -> classify score = HIGH.
Proof.
  intros [H1 H2]. unfold classify.
  destruct (Qlt_le_dec score 30); [lra |].
  destruct (Qlt_le_dec score 50); [lra |].
  destruct (Qlt_le_dec score 70); [reflexivity | lra].
Qed.

Lemma classify_very_high score : (70 <= score)%Q -> classify score = VERY_HIGH.
Proof.
  intros H. unfold classify.
  destruct (Qlt_le_dec score 30); [lra |].
  destruct (Qlt_le_dec score 50); [lra |].
  destruct (Qlt_le_dec score 70); [lra | reflexivity].
Qed.

(** Every result of [_make_decision] is either the decline record or a
    record built by the final [return]. *)
Lemma make_decision_shape applicant score rule_results ml_results external_data :
  _make_decision applicant score rule_results ml_results external_data
    = _create_decline_decision applicant score rule_results
  \/ exists d reasons conds excls premium,
       d <> DECLINED
       /\ (d = REFER_TO_MANUAL_REVIEW -> premium = None)
       /\ _make_decision applicant score rule_results ml_results external_data
            = compose d (classify score) score reasons conds excls premium external_data.
Proof.
  unfold _make_decision.
  destruct (auto_decline rule_results); [left; reflexivity |].
  destruct (classify score).
  - right. do 5 eexists. split; [| split; [| reflexivity]]; discriminate.
  - right. do 5 eexists. split; [| split; [| reflexivity]]; discriminate.
  - right. do 5 eexists. split; [| split; [| reflexivity]]; discriminate.
  - destruct (Qlt_le_dec 85 score); [left; reflexivity |].
    right. do 5 eexists. split; [| split; [| reflexivity]]; [discriminate | reflexivity].
Qed.

(** The auto-decline flag leads to the decline record, whatever the score. *)
Lemma auto_decline_declines applicant score rule_results ml_results external_data :
  auto_decline rule_results = true ->
  _make_decision applicant score rule_results ml_results external_data
    = _create_decline_decision applicant score rule_results.
Proof. intros H. unfold _make_decision. rewrite H. reflexivity. Qed.

(** So does a score above 85. *)
Lemma score_above_85_declines applicant score rule_results ml_results external_data :
  (85 < score)%Q ->
  _make_decision applicant score rule_results ml_results external_data
    = _create_decline_decision applicant score rule_results.
Proof.
  intros H. unfold _make_decision.
  destruct (auto_decline rule_results); [reflexivity |].
  assert (H70 : (70 <= score)%Q) by lra.
  rewrite (classify_very_high score H70).
  destruct (Qlt_le_dec 85 score); [reflexivity | lra].
Qed.

End DecisionFacts.

(** Claim C1: the decision step maps the auto-decline flag of the rule
    engine and the risk score to the decision as the policy says.  With the
    flag set the decision is declined.  Without it the risk level is low
    below 30, medium from 30 to below 50, high from 50 to below 70 and very
    high from 70 on; low and medium are approved, high is approved with
    conditions, very high is declined above 85 and referred to manual review
    up to 85.  This holds for every applicant record, so for every valid
    one. *)
Theorem make_decision_policy
    (applicant : ApplicantData) (score : Q) (rule_results : RuleResults)
    (ml_results : MLResults) (external_data : ExternalData) :
  let d :=
    UnderwritingTool._make_decision applicant score rule_results ml_results external_data in
  (auto_decline rule_results = true -> decision d = DECLINED)
  /\ (auto_decline rule_results = false ->
      ((score < 30)%Q -> risk_level d = LOW /\ decision d = APPROVED)
      /\ ((30 <= score < 50)%Q -> risk_level d = MEDIUM /\ decision d = APPROVED)
      /\ ((50 <= score < 70)%Q ->
          risk_level d = HIGH /\ decision d = APPROVED_WITH_CONDITIONS)
      /\ ((70 <= score)%Q -> risk_level d = VERY_HIGH)
      /\ ((85 < score)%Q -> decision d = DECLINED)
      /\ ((70 <= score <= 85)%Q -> decision d = REFER_TO_MANUAL_REVIEW)).
Proof.
  cbv zeta. unfold UnderwritingTool._make_decision. split.
  - intros ->. reflexivity.
  - intros ->.
    refine (conj _ (conj _ (conj _ (conj _ (conj _ _))))); intros H.
    + rewrite (classify_low score H). split; reflexivity.
    + rewrite (classify_medium score H). split; reflexivity.
    + rewrite (classify_high score H). split; reflexivity.
    + rewrite (classify_very_high score H).
      destruct (Qlt_le_dec 85 score); reflexivity.
    + assert (H70 : (70 <= score)%Q) by lra.
      rewrite (classify_very_high score H70).
      destruct (Qlt_le_dec 85 score); [reflexivity | lra].
    + destruct H as [H70 H85].
      rewrite (classify_very_high score H70).
      destruct (Qlt_le_dec 85 score); [lra | reflexivity].
Qed.

(** The policy on sample inputs: a declining rule result, and the scores 10,
    40, 60, 80 and 90 without the flag. *)
Lemma make_decision_policy_witness :
  decision (UnderwritingTool._make_decision Samples.good_auto 10
              Samples.declining_rules UnderwritingMLModel.unavailable Samples.verified)
    = DECLINED
  /\ decision (UnderwritingTool._make_decision Samples.good_auto 10
                 Samples.no_rules UnderwritingMLModel.unavailable Samples.verified)
       = APPROVED
  /\ decision (UnderwritingTool._make_decision Samples.good_auto 40
                 Samples.no_rules UnderwritingMLModel.unavailable Samples.verified)
       = APPROVED
  /\ decision (UnderwritingTool._make_decision Samples.good_auto 60
                 Samples.no_rules UnderwritingMLModel.unavailable Samples.verified)
       = APPROVED_WITH_CONDITIONS
  /\ decision (UnderwritingTool._make_decision Samples.good_auto 80
                 Samples.no_rules UnderwritingMLModel.unavailable Samples.verified)
       = REFER_TO_MANUAL_REVIEW
  /\ decision (UnderwritingTool._make_decision Samples.good_auto 90
                 Samples.no_rules UnderwritingMLModel.unavailable Samples.verified)
       = DECLINED.
Proof.
  refine (conj _ (conj _ (conj _ (conj _ (conj _ _))))).
  - apply (proj1 (make_decision_policy Samples.good_auto 10 Samples.declining_rules
                    UnderwritingMLModel.unavailable Samples.verified)).
    reflexivity.
  - apply (proj1 (proj2 (make_decision_policy Samples.good_auto 10 Samples.no_rules
                           UnderwritingMLModel.unavailable Samples.verified)
                    eq_refl)).
    reflexivity.
  - apply (proj1 (proj2 (proj2 (make_decision_policy Samples.good_auto 40 Samples.no_rules
                                  UnderwritingMLModel.unavailable Samples.verified)
                           eq_refl))).
    split; [discriminate | reflexivity].
  - apply (proj1 (proj2 (proj2 (proj2 (make_decision_policy Samples.good_auto 60
                                         Samples.no_rules UnderwritingMLModel.unavailable
                                         Samples.verified)
                                  eq_refl)))).
    split; [discriminate | reflexivity].
  - apply (proj2 (proj2 (proj2 (proj2 (proj2 (proj2 (make_decision_policy
                                                       Samples.good_auto 80
                                                       Samples.no_rules
                                                       UnderwritingMLModel.unavailable
                                                       Samples.verified)
                                                eq_refl)))))).
    split; discriminate.
  - apply (proj1 (proj2 (proj2 (proj2 (proj2 (proj2 (make_decision_policy
                                                       Samples.good_auto 90
                                                       Samples.no_rules
                                                       UnderwritingMLModel.unavailable
                                                       Samples.verified)
                                                eq_refl)))))).
    reflexivity.
Defined.

(** Claim C2: an applicant whose claims history carries a fraud indicator is
    declined by the pipeline, whatever the simulated services and the
    classifier answer, whatever score results, and whatever the other fields
    of the profile are. *)
Theorem fraud_is_declined (env : Env) (applicant : ApplicantData) :
  fraud_indicators (claims_history applicant) = true ->
  decision (UnderwritingTool.assess env applicant) = DECLINED.
Proof.
  intros Hfraud. unfold UnderwritingTool.assess. cbv zeta.
  rewrite auto_decline_declines.
  - reflexivity.
  - apply fraud_sets_auto_decline. exact Hfraud.
Qed.

Lemma fraud_is_declined_witness :
  fraud_indicators (claims_history Samples.fraud_auto) = true
  /\ decision (UnderwritingTool.assess Samples.env_ok Samples.fraud_auto) = DECLINED.
Proof.
  split.
  - reflexivity.
  - apply (fraud_is_declined Samples.env_ok Samples.fraud_auto). reflexivity.
Defined.

(** Claim C3: a decision record that says declined or refer to manual review
    carries no premium information: the whole premium dictionary (base,
    risk-adjusted, additional, monthly and annual amount) is [None]. *)
Theorem no_premium_when_declined_or_referred
    (applicant : ApplicantData) (score : Q) (rule_results : RuleResults)
    (ml_results : MLResults) (external_data : ExternalData) :
  let d :=
    UnderwritingTool._make_decision applicant score rule_results ml_results external_data in
  decision d = DECLINED \/ decision d = REFER_TO_MANUAL_REVIEW ->
  premium_info d = None.
Proof.
  cbv zeta.
  destruct (make_decision_shape applicant score rule_results ml_results external_data)
    as [-> | (d & reasons & conds & excls & premium & Hd & Hrefer & ->)].
  - intros _. reflexivity.
  - cbn [decision premium_info UnderwritingTool.compose].
    intros [H | H]; [contradiction | exact (Hrefer H)].
Qed.

Lemma no_premium_when_declined_or_referred_witness :
  premium_info (UnderwritingTool._make_decision Samples.good_auto 80 Samples.no_rules
                  UnderwritingMLModel.unavailable Samples.verified) = None
  /\ premium_info (UnderwritingTool._make_decision Samples.good_auto 90 Samples.no_rules
                     UnderwritingMLModel.unavailable Samples.verified) = None.
Proof.
  split.
  - apply (no_premium_when_declined_or_referred Samples.good_auto 80 Samples.no_rules
             UnderwritingMLModel.unavailable Samples.verified).
    right. reflexivity.
  - apply (no_premium_when_declined_or_referred Samples.good_auto 90 Samples.no_rules
             UnderwritingMLModel.unavailable Samples.verified).
    left. reflexivity.
Defined.

(** The same for the pipeline: whatever [assess] returns as declined or
    referred has no premium. *)
Corollary assess_no_premium (env : Env) (applicant : ApplicantData) :
  let d := UnderwritingTool.assess env applicant in
  decision d = DECLINED \/ decision d = REFER_TO_MANUAL_REVIEW ->
  premium_info d = None.
Proof.
  cbv zeta. unfold UnderwritingTool.assess. cbv zeta.
  destruct (make_decision_shape applicant
              (RiskCalculator.calculate_risk_score applicant
                 (UnderwritingRuleEngine.evaluate_rules applicant
                    (UnderwritingTool._verify_external_data env applicant))
                 (UnderwritingTool._get_ml_prediction env applicant))
              (UnderwritingRuleEngine.evaluate_rules applicant
                 (UnderwritingTool._verify_external_data env applicant))
              (UnderwritingTool._get_ml_prediction env applicant)
              (UnderwritingTool._verify_external_data env applicant))
    as [-> | (d & reasons & conds & excls & premium & Hd & Hrefer & ->)].
  - intros _. reflexivity.
  - cbn [decision premium_info UnderwritingTool.compose].
    intros [H | H]; [contradiction | exact (Hrefer H)].
Qed.

(** Claim C8: in every decision record the [approved] flag is true exactly
    when the decision is approved or approved with conditions, and false
    exactly when it is declined or refer to manual review. *)
Theorem approved_flag_matches_decision
    (applicant : ApplicantData) (score : Q) (rule_results : RuleResults)
    (ml_results : MLResults) (external_data : ExternalData) :
  let d :=
    UnderwritingTool._make_decision applicant score rule_results ml_results external_data in
  (approved d = true <->
   decision d = APPROVED \/ decision d = APPROVED_WITH_CONDITIONS)
  /\ (approved d = false <->
      decision d = DECLINED \/ decision d = REFER_TO_MANUAL_REVIEW).
Proof.
  cbv zeta.
  destruct (make_decision_shape applicant score rule_results ml_results external_data)
    as [-> | (d & reasons & conds & excls & premium & Hd & Hrefer & ->)].
  - cbn. split; split.
    + discriminate.
    + intros [H | H]; discriminate.
    + intros _. left. reflexivity.
    + reflexivity.
  - cbn [decision approved UnderwritingTool.compose].
    destruct d; cbn; split; split; intros H;
      try discriminate; try reflexivity; try contradiction;
      try (left; reflexivity); try (right; reflexivity);
      destruct H as [H | H]; discriminate.
Qed.

(** Claim C9: a record declined because of the auto-decline flag or because
    the score is above 85 reports risk level very high, credit not verified
    and no external source, whatever the score is and whatever the external
    data say about the credit verification. *)
Theorem decline_record_is_fixed
    (applicant : ApplicantData) (score : Q) (rule_results : RuleResults)
    (ml_results : MLResults) (external_data : ExternalData) :
  auto_decline rule_results = true \/ (85 < score)%Q ->
  let d :=
    UnderwritingTool._make_decision applicant score rule_results ml_results external_data in
  decision d = DECLINED
  /\ risk_level d = VERY_HIGH
  /\ res_credit_verified d = false
  /\ res_external_sources d = []
  /\ risk_score d = score.
Proof.
  intros [H | H]; cbv zeta.
  - rewrite (auto_decline_declines _ _ _ _ _ H). repeat split.
  - rewrite (score_above_85_declines _ _ _ _ _ H). repeat split.
Qed.

(** A declining rule result with the score 10 and a successful credit
    verification, and the score 90 without the flag. *)
Lemma decline_record_is_fixed_witness :
  (ext_credit_verified Samples.verified = true
   /\ res_credit_verified
        (UnderwritingTool._make_decision Samples.good_auto 10 Samples.declining_rules
           UnderwritingMLModel.unavailable Samples.verified) = false
   /\ risk_level
        (UnderwritingTool._make_decision Samples.good_auto 10 Samples.declining_rules
           UnderwritingMLModel.unavailable Samples.verified) = VERY_HIGH)
  /\ res_external_sources
       (UnderwritingTool._make_decision Samples.good_auto 90 Samples.no_rules
          UnderwritingMLModel.unavailable Samples.verified) = [].
Proof.
  split; [split; [reflexivity | split] |].
  - apply (decline_record_is_fixed Samples.good_auto 10 Samples.declining_rules
             UnderwritingMLModel.unavailable Samples.verified).
    left. reflexivity.
  - apply (decline_record_is_fixed Samples.good_auto 10 Samples.declining_rules
             UnderwritingMLModel.unavailable Samples.verified).
    left. reflexivity.
  - apply (decline_record_is_fixed Samples.good_auto 90 Samples.no_rules
             UnderwritingMLModel.unavailable Samples.verified).
    right. reflexivity.
Defined.


(** ** The pipeline on the sample applicants *)

(** The good auto applicant of [example_usage] is approved at low risk, with
    the premium 166.36 a month. *)
Example good_auto_is_approved :
  decision (UnderwritingTool.assess Samples.env_ok Samples.good_auto) = APPROVED
  /\ risk_level (UnderwritingTool.assess Samples.env_ok Samples.good_auto) = LOW
  /\ option_map total_monthly_premium
       (premium_info (UnderwritingTool.assess Samples.env_ok Samples.good_auto))
     = Some (4159 # 25)%Q.
Proof. repeat split. Qed.

(** With the reported score 560 a draw of -15 takes the bureau's score below
    550, and the applicant is declined on the credit rule. *)
Example low_credit_declined_after_verification :
  decision
    (UnderwritingTool.assess
       {| env_credit_draw := Returned (-15); env_dmv_draw := Returned 0;
          env_model := None |}
       Samples.low_credit_auto) = DECLINED
  /\ decision (UnderwritingTool.assess Samples.env_credit_down Samples.low_credit_auto)
     = APPROVED.
Proof. repeat split. Qed.

(** ** The risk score *)

(** The clamp at the end of [calculate_risk_score]. *)
Lemma clamp_in_range (x : Q) : (0 <= Qmin 100 (Qmax 0 x) <= 100)%Q.
Proof.
  split.
  - apply Q.min_glb.
    + discriminate.
    + apply Q.le_max_l.
  - apply Q.le_min_l.
Qed.

(** Claim C4: the risk score lies in the closed interval from 0 to 100, for
    every applicant record, every result of the rule engine and every answer
    of the classifier (also one that predicts a class outside 0, 1, 2). *)
Theorem risk_score_in_range
    (applicant : ApplicantData) (rule_results : RuleResults) (ml_results : MLResults) :
  (0 <= RiskCalculator.calculate_risk_score applicant rule_results ml_results <= 100)%Q.
Proof.
  unfold RiskCalculator.calculate_risk_score. cbv zeta. apply clamp_in_range.
Qed.

(** The score that the pipeline reports in the decision record is in range
    too. *)
Corollary assess_score_in_range (env : Env) (applicant : ApplicantData) :
  (0 <= risk_score (UnderwritingTool.assess env applicant) <= 100)%Q.
Proof.
  unfold UnderwritingTool.assess. cbv zeta.
  match goal with
  | |- context [UnderwritingTool._make_decision ?a ?s ?r ?m ?e] =>
      destruct (make_decision_shape a s r m e)
        as [-> | (d & reasons & conds & excls & premium & _ & _ & ->)]
  end; cbn [risk_score UnderwritingTool._create_decline_decision UnderwritingTool.compose];
    unfold RiskCalculator.calculate_risk_score; cbv zeta; apply clamp_in_range.
Qed.

(** The score is not constant: the bounds are met by no accident.  The good
    auto applicant scores 60/11, and a predicted class of 40 is clamped to
    100. *)
Example risk_score_samples :
  (RiskCalculator.calculate_risk_score Samples.good_auto Samples.no_rules
     UnderwritingMLModel.unavailable == 60 # 11)%Q
  /\ (RiskCalculator.calculate_risk_score Samples.good_auto Samples.no_rules
        {| ml_available := true; ml_prediction := Some 40%Z; ml_confidence := None;
           ml_probabilities := None; ml_error := None |} == 100)%Q.
Proof. split; reflexivity. Qed.

(** Claim C10: the credit component of the risk score is computed from the
    applicant's own credit score alone.  Two evaluations of one applicant
    under different external data (so with different verified scores) have
    the same credit component, and two applicants with the same reported
    score have the same credit component; yet the verified score does feed
    the credit rule of the rule engine: for the applicant with the reported
    score 560, a bureau score of 545 sets the auto-decline flag and a bureau
    score of 570 does not, with the credit component unchanged. *)
Theorem credit_component_ignores_verified_score :
  (forall (applicant : ApplicantData) (ml_results : MLResults)
          (external_data1 external_data2 : ExternalData),
      RiskCalculator.credit_component
        (RiskCalculator.components applicant
           (UnderwritingRuleEngine.evaluate_rules applicant external_data1) ml_results)
      = RiskCalculator.credit_component
          (RiskCalculator.components applicant
             (UnderwritingRuleEngine.evaluate_rules applicant external_data2) ml_results))
  /\ (forall (applicant1 applicant2 : ApplicantData)
             (rule_results1 rule_results2 : RuleResults)
             (ml_results1 ml_results2 : MLResults),
         credit_score applicant1 = credit_score applicant2 ->
         RiskCalculator.credit_component
           (RiskCalculator.components applicant1 rule_results1 ml_results1)
         = RiskCalculator.credit_component
             (RiskCalculator.components applicant2 rule_results2 ml_results2))
  /\ (UnderwritingRuleEngine.verified_credit_score Samples.low_credit_auto
        (Samples.bureau_says 545) = 545
      /\ UnderwritingRuleEngine.verified_credit_score Samples.low_credit_auto
           (Samples.bureau_says 570) = 570
      /\ auto_decline (UnderwritingRuleEngine.evaluate_rules Samples.low_credit_auto
                         (Samples.bureau_says 545)) = true
      /\ auto_decline (UnderwritingRuleEngine.evaluate_rules Samples.low_credit_auto
                         (Samples.bureau_says 570)) = false).
Proof.
  split; [| split].
  - intros. reflexivity.
  - intros a1 a2 r1 r2 m1 m2 H.
    cbn [RiskCalculator.credit_component RiskCalculator.components].
    rewrite H. reflexivity.
  - repeat split.
Qed.

(** Two applicants with the reported score 750, in different evaluations. *)
Lemma credit_component_ignores_verified_score_witness :
  credit_score Samples.good_auto = credit_score Samples.fraud_auto
  /\ RiskCalculator.credit_component
       (RiskCalculator.components Samples.good_auto Samples.no_rules
          UnderwritingMLModel.unavailable)
     = RiskCalculator.credit_component
         (RiskCalculator.components Samples.fraud_auto Samples.declining_rules
            (UnderwritingMLModel.failed "no model")).
Proof.
  split.
  - reflexivity.
  - apply (proj1 (proj2 credit_component_ignores_verified_score)). reflexivity.
Defined.

(** ** The simulated credit bureau *)



(** ** Premium surcharges *)

Section SurchargeFacts.

Import RiskCalculator.

(** The [if]/[elif] chain picks the first group that matches. *)
Lemma factor_surcharge_first_match base factor :
  factor_surcharge base factor
  = match first_match factor with
    | Some c => category_surcharge base c
    | None => 0%Q
    end.
Proof.
  unfold factor_surcharge, first_match, matches.
  destruct (PyStr.str_in "DUI" factor || PyStr.str_in "fraud" (PyStr.lower factor));
    [reflexivity |].
  destruct (PyStr.str_in "accident" (PyStr.lower factor)
            || PyStr.str_in "claims" (PyStr.lower factor));
    [reflexivity |].
  destruct (PyStr.str_in "credit" (PyStr.lower factor)); reflexivity.
Qed.

(** The loop adds up what each factor contributes. *)
Lemma surcharges_from base factors acc :
  (fold_left (fun additional_premium factor =>
                additional_premium + factor_surcharge base factor)
             factors acc
   == acc + fold_right (fun factor total => factor_surcharge base factor + total)
              0 factors)%Q.
Proof.
  revert acc. induction factors as [| factor rest IH]; intros acc; cbn [fold_left fold_right].
  - ring.
  - rewrite IH. ring.
Qed.

Lemma surcharges_single base factor :
  (surcharges base [factor] == factor_surcharge base factor)%Q.
Proof. unfold surcharges. cbn [fold_left]. ring. Qed.

(** What the loop adds for one factor is never the sum of two or more
    matching groups. *)
Lemma not_double_counted base factor :
  (0 < base)%Q -> ~ double_counted base factor.
Proof.
  intros Hbase (chosen & Hmatch & (c1 & c2 & Hne & Hc1 & Hc2) & Hsum).
  rewrite surcharges_single, factor_surcharge_first_match in Hsum.
  unfold surcharge_of_set, first_match in Hsum.
  pose proof (Hmatch DuiFraud) as Hd.
  pose proof (Hmatch AccidentClaims) as Ha.
  pose proof (Hmatch Credit) as Hc.
  destruct (chosen DuiFraud) eqn:Ed;
    destruct (chosen AccidentClaims) eqn:Ea;
    destruct (chosen Credit) eqn:Ec;
    try (destruct c1, c2; congruence);
    try rewrite (Hd eq_refl) in Hsum;
    try rewrite (Ha eq_refl) in Hsum;
    try rewrite (Hc eq_refl) in Hsum;
    cbn [category_surcharge] in Hsum;
    try (destruct (matches DuiFraud factor); cbn [category_surcharge] in Hsum);
    lra.
Qed.

Lemma BASE_PREMIUMS_positive t : (0 < BASE_PREMIUMS t)%Q.
Proof. destruct t; reflexivity. Qed.

End SurchargeFacts.

(** Claim C7, as stated, does not hold: for no insurance type and no risk
    factor does the loop add the surcharges of two or more keyword groups
    for that one factor. *)
Lemma no_factor_is_double_counted :
  ~ exists (t : InsuranceType) (factor : string),
      double_counted (RiskCalculator.BASE_PREMIUMS t) factor.
Proof.
  intros (t & factor & H).
  exact (not_double_counted _ factor (BASE_PREMIUMS_positive t) H).
Qed.

(** A factor that mentions both credit and claims adds 20% of the base
    premium on an auto policy, not 35%. *)
Example credit_and_claims_factor :
  matches AccidentClaims "Poor credit history and frequent claims" = true
  /\ matches Credit "Poor credit history and frequent claims" = true
  /\ (RiskCalculator.surcharges 150 ["Poor credit history and frequent claims"] == 30)%Q
  /\ additional_premium
       (RiskCalculator.calculate_premium Samples.good_auto 0
          ["Poor credit history and frequent claims"]) = 30%Q.
Proof. repeat split. Qed.

(** Claim C7, amended: the loop of [calculate_premium] adds, for every risk
    factor, the surcharge of exactly one keyword group, the first that the
    factor matches in the order DUI/fraud (50% of the base premium),
    accident/claims (20%), credit (15%), and nothing for a factor that
    matches none; the additional premium is the sum of these amounts over
    the factors.  A factor that matches several groups is charged once. *)
Theorem one_surcharge_per_factor (base : Q) (factors : list string) :
  (RiskCalculator.surcharges base factors
   == fold_right
        (fun factor total =>
           match first_match factor with
           | Some c => category_surcharge base c
           | None => 0
           end + total)
        0 factors)%Q.
Proof.
  unfold RiskCalculator.surcharges. rewrite surcharges_from.
  rewrite Qplus_0_l.
  induction factors as [| factor rest IH]; cbn [fold_right].
  - reflexivity.
  - rewrite IH, factor_surcharge_first_match. reflexivity.
Qed.

(** ** Construction of an applicant *)

Section ConstructionFacts.

Import Pydantic Constraints.

Local Open Scope checked_scope.

Lemma errors_of_ap {A B} (f : checked (A -> B)) (x : checked A) :
  errors_of (f <*> x) = (errors_of f ++ errors_of x)%list.
Proof.
  destruct f as [ef | g], x as [ex | a]; cbn; try reflexivity.
  symmetry. apply app_nil_r.
Qed.

Lemma ap_inr_inv {A B} (f : checked (A -> B)) (x : checked A) (b : B) :
  f <*> x = inr b -> exists g a, f = inr g /\ x = inr a /\ b = g a.
Proof.
  destruct f as [ef | g], x as [ex | a]; cbn; try discriminate.
  intros [= <-]. exists g, a. auto.
Qed.

Lemma informative_ok {A} (a : A) : informative (ok a).
Proof. exact I. Qed.

Lemma informative_fail {A} loc k : informative (@fail A loc k).
Proof. cbn. discriminate. Qed.

Lemma informative_ap {A B} (f : checked (A -> B)) (x : checked A) :
  informative f -> informative x -> informative (f <*> x).
Proof.
  destruct f as [ef | g], x as [ex | a]; cbn; auto.
  intros Hf _ H. apply app_eq_nil in H. tauto.
Qed.

Lemma informative_required {A B} loc (v : raw A) (check : A -> checked B) :
  (forall a, informative (check a)) -> informative (required loc v check).
Proof. intros H. destruct v; cbn; auto; discriminate. Qed.

Lemma informative_with_default {A} (d : A) loc v : informative (with_default d loc v).
Proof. destruct v; cbn; auto; discriminate. Qed.

Lemma informative_optional {A B} loc (v : raw A) (check : A -> checked B) :
  (forall a, informative (check a)) -> informative (optional loc v check).
Proof.
  intros H. destruct v as [| | a]; cbn; auto; try discriminate.
  specialize (H a). destruct (check a); cbn; auto.
Qed.

Lemma informative_ge_int l loc n : informative (ge_int l loc n).
Proof. unfold ge_int. destruct (n <? l); cbn; auto; discriminate. Qed.

Lemma informative_ge_le_int l h loc n : informative (ge_le_int l h loc n).
Proof.
  unfold ge_le_int. destruct (n <? l); [cbn; discriminate |].
  destruct (n >? h); cbn; auto; discriminate.
Qed.

Lemma informative_ge_float l loc x : informative (ge_float l loc x).
Proof. unfold ge_float. destruct (Qlt_le_dec x l); cbn; auto; discriminate. Qed.

Lemma informative_min_length k loc s : informative (min_length k loc s).
Proof. unfold min_length. destruct (String.length s <? k)%nat; cbn; auto; discriminate. Qed.

Lemma informative_one_of {A} k (table : list (string * A)) loc s :
  informative (one_of k table loc s).
Proof. unfold one_of. destruct (lookup table s); cbn; auto; discriminate. Qed.

Create HintDb informative.

#[local] Hint Resolve informative_ok informative_fail informative_ap informative_required
  informative_with_default informative_optional informative_ge_int
  informative_ge_le_int informative_ge_float informative_min_length
  informative_one_of : informative.

Lemma informative_ClaimsHistory loc r : informative (ClaimsHistory_fields loc r).
Proof. unfold ClaimsHistory_fields. auto 20 with informative. Qed.

Lemma informative_DrivingRecord loc r : informative (DrivingRecord_fields loc r).
Proof. unfold DrivingRecord_fields. auto 20 with informative. Qed.

Lemma informative_PropertyInfo loc r : informative (PropertyInfo_fields loc r).
Proof. unfold PropertyInfo_fields. auto 20 with informative. Qed.

#[local] Hint Resolve informative_ClaimsHistory informative_DrivingRecord
  informative_PropertyInfo : informative.

Lemma informative_ApplicantData r : informative (ApplicantData_fields r).
Proof. unfold ApplicantData_fields. auto 40 with informative. Qed.

(** The errors of a nested record are the errors of its fields. *)
Lemma errors_of_ClaimsHistory loc r :
  errors_of (ClaimsHistory_fields loc r) = ClaimsHistory_violations loc r.
Proof.
  unfold ClaimsHistory_fields, ClaimsHistory_violations.
  rewrite !errors_of_ap. cbn [errors_of ok app]. rewrite <- !app_assoc. reflexivity.
Qed.

Lemma errors_of_DrivingRecord loc r :
  errors_of (DrivingRecord_fields loc r) = DrivingRecord_violations loc r.
Proof.
  unfold DrivingRecord_fields, DrivingRecord_violations.
  rewrite !errors_of_ap. cbn [errors_of ok app]. rewrite <- !app_assoc. reflexivity.
Qed.

Lemma errors_of_PropertyInfo loc r :
  errors_of (PropertyInfo_fields loc r) = PropertyInfo_violations loc r.
Proof.
  unfold PropertyInfo_fields, PropertyInfo_violations.
  rewrite !errors_of_ap. cbn [errors_of ok app]. rewrite <- !app_assoc. reflexivity.
Qed.

Lemma errors_of_required_nested {A B} loc (v : raw A)
    (fields : list string -> A -> checked B) violations :
  (forall a, errors_of (fields loc a) = violations loc a) ->
  errors_of (required loc v (fields loc)) = nested true loc v violations.
Proof. intros H. destruct v; cbn; auto. Qed.

Lemma errors_of_optional_nested {A B} loc (v : raw A)
    (fields : list string -> A -> checked B) violations :
  (forall a, errors_of (fields loc a) = violations loc a) ->
  errors_of (optional loc v (fields loc)) = nested false loc v violations.
Proof.
  intros H. destruct v as [| | a]; cbn; auto.
  rewrite <- H. destruct (fields loc a); reflexivity.
Qed.

(** The field validation gathers the errors of all fields. *)
Lemma errors_of_ApplicantData r :
  errors_of (ApplicantData_fields r) = field_violations r.
Proof.
  unfold ApplicantData_fields, field_violations.
  rewrite !errors_of_ap. cbn [errors_of ok app].
  rewrite (errors_of_required_nested ["claims_history"] (raw_claims_history r)
             ClaimsHistory_fields ClaimsHistory_violations)
    by (intros; apply errors_of_ClaimsHistory).
  rewrite (errors_of_optional_nested ["driving_record"] (raw_driving_record r)
             DrivingRecord_fields DrivingRecord_violations)
    by (intros; apply errors_of_DrivingRecord).
  rewrite (errors_of_optional_nested ["property_info"] (raw_property_info r)
             PropertyInfo_fields PropertyInfo_violations)
    by (intros; apply errors_of_PropertyInfo).
  rewrite <- !app_assoc. reflexivity.
Qed.

Lemma fields_fail r :
  field_violations r <> [] -> ApplicantData_fields r = inl (field_violations r).
Proof.
  intros H. rewrite <- errors_of_ApplicantData in *.
  destruct (ApplicantData_fields r); cbn in *; [reflexivity | contradiction].
Qed.

Lemma fields_pass r :
  field_violations r = [] -> exists self, ApplicantData_fields r = inr self.
Proof.
  intros H. rewrite <- errors_of_ApplicantData in H.
  pose proof (informative_ApplicantData r) as Hinf.
  destruct (ApplicantData_fields r) as [errors | self]; cbn in *.
  - contradiction.
  - eauto.
Qed.

(** What a successful field validation says about the raw record. *)
Lemma required_inr {A B} loc (v : raw A) (check : A -> checked B) (b : B) :
  required loc v check = inr b -> exists a, v = Given a /\ check a = inr b.
Proof. destruct v as [| | a]; cbn; try discriminate. eauto. Qed.

Lemma optional_inr {A B} loc (v : raw A) (check : A -> checked B) (o : option B) :
  optional loc v check = inr o -> absent v = negb (is_some o).
Proof.
  destruct v as [| | a]; cbn; try discriminate.
  - intros [= <-]. reflexivity.
  - destruct (check a); cbn; try discriminate. intros [= <-]. reflexivity.
Qed.

Lemma one_of_inr {A} k (table : list (string * A)) loc s (a : A) :
  one_of k table loc s = inr a -> lookup table s = Some a.
Proof. unfold one_of, ok, fail. destruct (lookup table s); congruence. Qed.

Ltac invert_fields H :=
  repeat match type of H with
         | _ <*> _ = inr _ =>
             let g := fresh "g" in
             let x := fresh "x" in
             let Hx := fresh "Hx" in
             apply ap_inr_inv in H; destruct H as (g & x & H & Hx & ->)
         end;
  injection H as <-.

Lemma fields_link r self :
  ApplicantData_fields r = inr self ->
  (exists t, raw_insurance_type r = Given t
             /\ lookup insurance_types t = Some (insurance_type self))
  /\ absent (raw_driving_record r) = negb (is_some (driving_record self))
  /\ absent (raw_property_info r) = negb (is_some (property_info self))
  /\ absent (raw_smoker r) = negb (is_some (smoker self)).
Proof.
  unfold ApplicantData_fields. intros H. invert_fields H.
  cbn [insurance_type driving_record property_info smoker].
  repeat split; eauto using optional_inr.
  match goal with
  | Ht : required ["insurance_type"] _ _ = inr _ |- _ =>
      apply required_inr in Ht; destruct Ht as (t & Ht & Hone)
  end.
  exists t. split; [assumption |]. eapply one_of_inr. eassumption.
Qed.

(** The type-specific validator raises exactly when the requirement of the
    insurance type is not met by the raw record. *)
Lemma type_specific_agree r self :
  ApplicantData_fields r = inr self ->
  match validate_type_specific_data self with
  | Returned applicant => applicant = self /\ type_specific_violations r = []
  | Raised msg => type_specific_violations r = [requirement msg]
  end.
Proof.
  intros H. destruct (fields_link r self H) as ((t & Ht & Hlook) & Hd & Hp & Hs).
  unfold type_specific_violations, validate_type_specific_data.
  rewrite Ht, Hd, Hp, Hs. cbn [lookup insurance_types] in Hlook.
  destruct (String.eqb "auto" t) eqn:Eauto.
  { injection Hlook as <-.
    destruct (driving_record self), (property_info self), (smoker self); cbn; auto. }
  destruct (String.eqb "home" t) eqn:Ehome.
  { injection Hlook as <-.
    destruct (driving_record self), (property_info self), (smoker self); cbn; auto. }
  destruct (String.eqb "life" t) eqn:Elife.
  { injection Hlook as <-. apply String.eqb_eq in Elife. subst t.
    destruct (driving_record self), (property_info self), (smoker self); cbn; auto. }
  destruct (String.eqb "health" t) eqn:Ehealth; [| discriminate].
  injection Hlook as <-. apply String.eqb_eq in Ehealth. subst t.
  destruct (driving_record self), (property_info self), (smoker self); cbn; auto.
Qed.

(** A record that violates a constraint is not constructed, and what the
    failure reports is determined by the field violations. *)
Lemma construct_fails r :
  violated_constraints r <> [] ->
  exists errors,
    construct r = inl errors
    /\ errors <> []
    /\ (field_violations r <> [] -> errors = field_violations r)
    /\ (field_violations r = [] -> errors = type_specific_violations r).
Proof.
  intros Hviolated. unfold construct.
  destruct (field_violations r) as [| e rest] eqn:Efields.
  - destruct (fields_pass r Efields) as (self & Hself). rewrite Hself.
    pose proof (type_specific_agree r self Hself) as Hagree.
    unfold violated_constraints in Hviolated. rewrite Efields in Hviolated.
    cbn [app] in Hviolated.
    destruct (validate_type_specific_data self) as [applicant | msg].
    + destruct Hagree as [_ Hnone]. contradiction.
    + exists [requirement msg]. repeat split.
      * discriminate.
      * intros Hne. contradiction.
      * intros _. symmetry. exact Hagree.
  - assert (Hne : field_violations r <> []) by (rewrite Efields; discriminate).
    rewrite (fields_fail r Hne). rewrite Efields.
    exists (e :: rest). repeat split.
    + discriminate.
    + intros Hnil. discriminate.
Qed.

(** A record that violates nothing is constructed. *)
Lemma construct_passes r :
  violated_constraints r = [] -> exists applicant, construct r = inr applicant.
Proof.
  intros Hnone. unfold violated_constraints in Hnone.
  apply app_eq_nil in Hnone. destruct Hnone as [Hfields Htype].
  destruct (fields_pass r Hfields) as (self & Hself).
  unfold construct. rewrite Hself.
  pose proof (type_specific_agree r self Hself) as Hagree.
  destruct (validate_type_specific_data self) as [applicant | msg].
  - eauto.
  - rewrite Htype in Hagree. discriminate.
Qed.

(** What a successful check says about the value. *)
Lemma ge_int_inr l loc n m : ge_int l loc n = inr m -> l <= m.
Proof.
  unfold ge_int, ok, fail. destruct (n <? l) eqn:E; [discriminate |].
  intros [= <-]. apply Z.ltb_ge. exact E.
Qed.

Lemma ge_le_int_inr l h loc n m : ge_le_int l h loc n = inr m -> l <= m <= h.
Proof.
  unfold ge_le_int, ok, fail. destruct (n <? l) eqn:El; [discriminate |].
  destruct (n >? h) eqn:Eh; [discriminate |].
  intros [= <-]. apply Z.ltb_ge in El. rewrite Z.gtb_ltb in Eh.
  apply Z.ltb_ge in Eh. lia.
Qed.

Lemma ge_float_inr l loc x y : ge_float l loc x = inr y -> (l <= y)%Q.
Proof.
  unfold ge_float, ok, fail. destruct (Qlt_le_dec x l); [discriminate |].
  intros [= <-]. assumption.
Qed.

Lemma min_length_inr k loc s s' :
  min_length k loc s = inr s' -> (k <= String.length s')%nat.
Proof.
  unfold min_length, ok, fail. destruct (String.length s <? k)%nat eqn:E; [discriminate |].
  intros [= <-]. apply Nat.ltb_ge. exact E.
Qed.

Lemma optional_inr_some {A B} loc (v : raw A) (check : A -> checked B) o b :
  optional loc v check = inr o -> o = Some b -> exists a, v = Given a /\ check a = inr b.
Proof.
  destruct v as [| | a]; cbn; try discriminate.
  - intros [= <-]. discriminate.
  - destruct (check a) as [errors | b'] eqn:E; cbn; try discriminate.
    intros [= <-] [= <-]. eauto.
Qed.

Ltac field_bound :=
  match goal with
  | H : required _ _ _ = inr _ |- _ =>
      apply required_inr in H; destruct H as (? & _ & H)
  | H : ge_int _ _ _ = inr _ |- _ => apply ge_int_inr in H
  | H : ge_le_int _ _ _ _ = inr _ |- _ => apply ge_le_int_inr in H
  | H : ge_float _ _ _ = inr _ |- _ => apply ge_float_inr in H
  | H : min_length _ _ _ = inr _ |- _ => apply min_length_inr in H
  end.

Lemma ClaimsHistory_fields_valid loc r c :
  ClaimsHistory_fields loc r = inr c -> valid_ClaimsHistory c.
Proof.
  unfold ClaimsHistory_fields. intros H. invert_fields H.
  repeat field_bound. unfold valid_ClaimsHistory. cbn. auto.
Qed.

Lemma DrivingRecord_fields_valid loc r d :
  DrivingRecord_fields loc r = inr d -> valid_DrivingRecord d.
Proof.
  unfold DrivingRecord_fields. intros H. invert_fields H.
  repeat field_bound. unfold valid_DrivingRecord. cbn. auto.
Qed.

Lemma PropertyInfo_fields_valid loc r p :
  PropertyInfo_fields loc r = inr p -> valid_PropertyInfo p.
Proof.
  unfold PropertyInfo_fields. intros H. invert_fields H.
  repeat field_bound. unfold valid_PropertyInfo. cbn. auto.
Qed.

Lemma validate_type_specific_data_returns self applicant :
  validate_type_specific_data self = Returned applicant ->
  applicant = self /\ type_specific_data self.
Proof.
  unfold validate_type_specific_data, type_specific_data.
  destruct (insurance_type self), (driving_record self), (property_info self),
    (smoker self); intros H; try discriminate; injection H as <-;
    split; try reflexivity; discriminate.
Qed.

(** Every applicant that the constructor returns satisfies the constraints
    of the class. *)
Lemma construct_valid r applicant :
  construct r = inr applicant -> valid_applicant applicant.
Proof.
  unfold construct.
  destruct (ApplicantData_fields r) as [errors | self] eqn:Hfields; [discriminate |].
  destruct (validate_type_specific_data self) as [a | msg] eqn:Hspecific;
    [| discriminate].
  intros [= <-].
  apply validate_type_specific_data_returns in Hspecific.
  destruct Hspecific as [-> Htype].
  unfold valid_applicant. repeat split; try exact Htype; clear Htype;
    unfold ApplicantData_fields in Hfields; invert_fields Hfields;
    cbn [name age credit_score annual_income coverage_amount claims_history
         driving_record property_info].
  all: repeat field_bound.
  all: try match goal with
           | Hc : ClaimsHistory_fields _ _ = inr _ |- _ =>
               apply ClaimsHistory_fields_valid in Hc; unfold valid_ClaimsHistory in Hc
           end.
  all: try match goal with
           | Ho : optional _ _ _ = inr ?o, Hs : ?o = Some _ |- _ =>
               destruct (optional_inr_some _ _ _ _ _ Ho Hs) as (? & _ & Hinner);
               first [ apply DrivingRecord_fields_valid in Hinner;
                       unfold valid_DrivingRecord in Hinner
                     | apply PropertyInfo_fields_valid in Hinner;
                       unfold valid_PropertyInfo in Hinner ]
           end.
  all: tauto || lia.
Qed.

End ConstructionFacts.

(** Claim C6, as stated, does not hold: the raw record of a 17 year old who
    asks for auto insurance without a driving record violates the age bound
    and the driving-record requirement, and the failure reports the age
    bound only. *)
Lemma under_age_no_record_not_enumerated :
  Constraints.violated_constraints Samples.under_age_no_record
    = [ {| err_loc := ["age"]; err_kind := greater_than_equal 18 |};
        Constraints.requirement "Driving record is required for auto insurance" ]
  /\ Pydantic.construct Samples.under_age_no_record
     = inl [ {| err_loc := ["age"]; err_kind := greater_than_equal 18 |} ]
  /\ ~ In (Constraints.requirement "Driving record is required for auto insurance")
          (Constraints.reported Samples.under_age_no_record)
  /\ ~ (forall (r : RawApplicant) (violation : ErrorDetail),
           In violation (Constraints.violated_constraints r) ->
           In violation (Constraints.reported r)).
Proof.
  assert (Hmissing :
            ~ In (Constraints.requirement "Driving record is required for auto insurance")
                 (Constraints.reported Samples.under_age_no_record)).
  { cbn. intros [H | []]. discriminate H. }
  split; [reflexivity | split; [reflexivity | split; [exact Hmissing |]]].
  intros Hall. apply Hmissing. apply Hall. cbn. right. left. reflexivity.
Qed.

(** The requirement is reported when the fields are fine: the record of
    [test_missing_driving_record]. *)
Example missing_driving_record_reported :
  _run Samples.env_ok Samples.no_record
  = ValidationFailed
      [Constraints.requirement "Driving record is required for auto insurance"].
Proof. reflexivity. Qed.

(** Claim C6, amended: for every raw record that violates a constraint,
    construction fails, no applicant is produced and [_run] returns the
    failure without running the pipeline.  The failure lists every violated
    field constraint of the record, all of them and not only the first; the
    requirement that depends on the insurance type is checked, and reported
    alone, only when no field constraint is violated. *)
Theorem construction_failure_report (env : Env) (r : RawApplicant) :
  Constraints.violated_constraints r <> [] ->
  exists errors,
    Pydantic.construct r = inl errors
    /\ _run env r = ValidationFailed errors
    /\ errors <> []
    /\ (Constraints.field_violations r <> [] ->
        errors = Constraints.field_violations r)
    /\ (Constraints.field_violations r = [] ->
        errors = Constraints.type_specific_violations r).
Proof.
  intros Hviolated.
  destruct (construct_fails r Hviolated) as (errors & Hfail & Hne & Hfields & Htype).
  exists errors. unfold _run. rewrite Hfail. auto.
Qed.

Lemma construction_failure_report_witness :
  Constraints.violated_constraints Samples.under_age_no_record <> []
  /\ exists errors,
       Pydantic.construct Samples.under_age_no_record = inl errors
       /\ _run Samples.env_ok Samples.under_age_no_record = ValidationFailed errors
       /\ errors <> []
       /\ (Constraints.field_violations Samples.under_age_no_record <> [] ->
           errors = Constraints.field_violations Samples.under_age_no_record)
       /\ (Constraints.field_violations Samples.under_age_no_record = [] ->
           errors = Constraints.type_specific_violations Samples.under_age_no_record).
Proof.
  split.
  - cbn. discriminate.
  - apply (construction_failure_report Samples.env_ok Samples.under_age_no_record).
    cbn. discriminate.
Defined.
